(** * joke-cli: joke generation and feedback aggregation

    A shallow embedding of the core of the [joke_cli] Python package
    ([models.py], [config.py], [prompts.py], [error_handler.py],
    [bedrock_client.py], [feedback_storage.py], [joke_service.py]), the
    properties of its specification that are settled on it, and further
    properties read off the code.

    Conventions.
    - A Python [str] is a [string] whose characters are the code points
      below 256; the text methods used by the package ([strip], [lower],
      [startswith], [endswith], [split], [join], slicing) are defined on it
      in [PyStr].
    - A Python [float] is a binary64 [float]; [/] on integers and
      [round(x, 2)] are defined in [PyFloat].
    - A function that can raise returns a [result]; a function that reads or
      changes state (the feedback file, the cached SDK client, the log of
      requests sent) takes the state and returns the new one. *)

From Stdlib Require Import Bool Arith NArith ZArith List Ascii String Lia.
From Stdlib Require Import Floats.PrimFloat Floats.FloatOps Floats.SpecFloat.
From Stdlib Require Import Uint63 DecimalString.
Import ListNotations.

Set Warnings "-inexact-float".

Local Open Scope string_scope.
Local Open Scope list_scope.
Local Open Scope nat_scope.

(* ================================================================== *)
(** * Python text *)
(* ================================================================== *)

Module PyStr.

(** The line feed, the separator of [split('\n')] and ['\n'.join]. *)
Definition nl : ascii := "010"%char.

(** [str.isspace] on one character: TAB..CR, FS..US, space, NEL, NBSP. *)
Definition is_space (c : ascii) : bool :=
  let n := nat_of_ascii c in
  ((9 <=? n) && (n <=? 13)) || ((28 <=? n) && (n <=? 32))
  || (n =? 133) || (n =? 160).

(** [str.lower] on one character: A..Z and the Latin-1 capitals. *)
Definition lower_char (c : ascii) : ascii :=
  let n := nat_of_ascii c in
  if ((65 <=? n) && (n <=? 90))
     || ((192 <=? n) && (n <=? 222) && negb (n =? 215))
  then ascii_of_nat (n + 32) else c.

Fixpoint lower (s : string) : string :=
  match s with
  | EmptyString => EmptyString
  | String c r => String (lower_char c) (lower r)
  end.

Fixpoint lstrip (s : string) : string :=
  match s with
  | EmptyString => EmptyString
  | String c r => if is_space c then lstrip r else s
  end.

Fixpoint rstrip (s : string) : string :=
  match s with
  | EmptyString => EmptyString
  | String c r =>
      match rstrip r with
      | EmptyString => if is_space c then EmptyString else String c EmptyString
      | r' => String c r'
      end
  end.

(** [s.strip()] *)
Definition strip (s : string) : string := lstrip (rstrip s).

(** [not s] for a string: true on the empty string. *)
Definition is_empty (s : string) : bool :=
  match s with EmptyString => true | String _ _ => false end.

(** [s[n:]] for [0 <= n]. *)
Fixpoint drop (n : nat) (s : string) : string :=
  match n, s with
  | O, _ => s
  | S _, EmptyString => EmptyString
  | S k, String _ r => drop k r
  end.

(** [s[:n]] for [0 <= n]. *)
Fixpoint take (n : nat) (s : string) : string :=
  match n, s with
  | O, _ => EmptyString
  | S _, EmptyString => EmptyString
  | S k, String c r => String c (take k r)
  end.

(** [s[:-n]] for [0 < n]. *)
Definition drop_last (n : nat) (s : string) : string :=
  take (String.length s - n) s.

(** [s.startswith(p)] *)
Definition startswith (s p : string) : bool := String.prefix p s.

(** [s.endswith(p)] *)
Definition endswith (s p : string) : bool :=
  (String.length p <=? String.length s)
  && String.eqb (drop (String.length s - String.length p) s) p.

(** [s.split(sep)] for a separator of one character. *)
Fixpoint split (sep : ascii) (s : string) : list string :=
  match s with
  | EmptyString => [EmptyString]
  | String c r =>
      if Ascii.eqb c sep then EmptyString :: split sep r
      else match split sep r with
           | [] => [String c EmptyString]
           | h :: t => String c h :: t
           end
  end.

(** [sep.join(l)] *)
Definition join (sep : string) (l : list string) : string :=
  String.concat sep l.

(** [p in s] *)
Fixpoint contains (s p : string) : bool :=
  String.prefix p s
  || match s with
     | EmptyString => false
     | String _ r => contains r p
     end.

(** [s.replace(old, "")] for a non-empty [old]; [fuel] bounds the scan. *)
Fixpoint remove_all_fuel (fuel : nat) (old s : string) : string :=
  match fuel with
  | O => s
  | S k =>
      match s with
      | EmptyString => EmptyString
      | String c r =>
          if String.prefix old s
          then remove_all_fuel k old (drop (String.length old) s)
          else String c (remove_all_fuel k old r)
      end
  end.

Definition remove_all (old s : string) : string :=
  remove_all_fuel (S (String.length s)) old s.

End PyStr.

(* ================================================================== *)
(** * joke_service.py: [JokeService._clean_joke_text] *)
(* ================================================================== *)

Module Cleaner.
Import PyStr.

Definition prefixes_to_remove : list string :=
  [ "Here's a joke for you:"; "Here's a joke:"; "Joke:"; "Here you go:";
    "Sure, here's a joke:"; "Here's one:" ].

Definition suffixes_to_remove : list string :=
  [ "Hope you enjoyed it!"; "Hope that made you smile!";
    "I hope you found that funny!"; "Did you like it?" ].

(** The [for prefix in prefixes_to_remove: ... break] loop. *)
Fixpoint remove_prefix (prefixes : list string) (cleaned : string) : string :=
  match prefixes with
  | [] => cleaned
  | prefix :: rest =>
      if startswith (lower cleaned) (lower prefix)
      then strip (drop (String.length prefix) cleaned)
      else remove_prefix rest cleaned
  end.

(** The [for suffix in suffixes_to_remove: ... break] loop. *)
Fixpoint remove_suffix (suffixes : list string) (cleaned : string) : string :=
  match suffixes with
  | [] => cleaned
  | suffix :: rest =>
      if endswith (lower cleaned) (lower suffix)
      then strip (drop_last (String.length suffix) cleaned)
      else remove_suffix rest cleaned
  end.

(** [[line.strip() for line in cleaned.split('\n') if line.strip()]] *)
Definition nonblank_lines (cleaned : string) : list string :=
  map strip (filter (fun line => negb (is_empty (strip line)))
                    (split nl cleaned)).

Definition _clean_joke_text (joke_text : string) : string :=
  let cleaned := strip joke_text in
  let cleaned := remove_prefix prefixes_to_remove cleaned in
  let cleaned := remove_suffix suffixes_to_remove cleaned in
  let lines := nonblank_lines cleaned in
  join (String nl EmptyString) lines.

(** No lead-in of the list starts [s], compared case-insensitively. *)
Definition has_lead_in (s : string) : bool :=
  existsb (fun prefix => startswith (lower s) (lower prefix))
          prefixes_to_remove.

(** No sign-off of the list ends [s], compared case-insensitively. *)
Definition has_sign_off (s : string) : bool :=
  existsb (fun suffix => endswith (lower s) (lower suffix))
          suffixes_to_remove.

End Cleaner.

(* ================================================================== *)
(** * Exceptions and results *)
(* ================================================================== *)

(** The exceptions the package raises or meets; all are subclasses of
    [Exception]. [NoCredentialsError], [PartialCredentialsError],
    [ConnectionError] and [ReadTimeoutError] are subclasses of
    [BotoCoreError]; [BotoCoreError] as a constructor is any other one.
    A [ClientError] carries [response['Error']['Code']] and
    [response['Error']['Message']], when present, and its [str].
    [OSError] is the class that [IOError] names, with its subclasses
    ([PermissionError], [FileNotFoundError], ...). [RuntimeError] stands
    for its subclasses too ([RecursionError]), [ValueError] for none of
    its own: [UnicodeDecodeError] and [JSONDecodeError] are listed apart.
    [OtherException] is any further subclass of [Exception], with its
    [str]. *)
Inductive exn : Type :=
| ValueError (msg : string)
| KeyError (key_repr : string)
| TypeError (msg : string)
| AttributeError (msg : string)
| IndexError (msg : string)
| RuntimeError (msg : string)
| UnicodeDecodeError (msg : string)
| JSONDecodeError (msg : string)
| BedrockClientError (msg : string)
| NoCredentialsError (msg : string)
| PartialCredentialsError (msg : string)
| ClientError (code message : option string) (msg : string)
| ConnectionError (msg : string)
| ReadTimeoutError (msg : string)
| BotoCoreError (msg : string)
| OtherException (msg : string)
| OSError (msg : string).

(** [str(e)] *)
Definition exn_str (e : exn) : string :=
  match e with
  | ValueError m | KeyError m | TypeError m | AttributeError m | IndexError m
  | RuntimeError m | UnicodeDecodeError m | JSONDecodeError m
  | BedrockClientError m | NoCredentialsError m | PartialCredentialsError m
  | ClientError _ _ m | ConnectionError m | ReadTimeoutError m
  | BotoCoreError m | OtherException m | OSError m => m
  end.

(** [KeyError(key)] for a string key: its [str] is the [repr] of the key. *)
Definition KeyError_of (key : string) : exn :=
  KeyError ("'" ++ key ++ "'")%string.

Inductive result (A : Type) : Type :=
| Ok (a : A)
| Raise (e : exn).
Arguments Ok {A} a.
Arguments Raise {A} e.

Definition bind {A B : Type} (m : result A) (k : A -> result B) : result B :=
  match m with
  | Ok a => k a
  | Raise e => Raise e
  end.

(** [if c: raise e] *)
Definition raise_if (c : bool) (e : exn) : result unit :=
  if c then Raise e else Ok tt.

Declare Scope result_scope.
Delimit Scope result_scope with result.
Notation "x <- m ;; k" := (bind m (fun x => k))
  (at level 61, m at next level, right associativity) : result_scope.
Notation "m ;; k" := (bind m (fun _ => k))
  (at level 61, right associativity) : result_scope.

Definition is_ok {A : Type} (r : result A) : bool :=
  match r with Ok _ => true | Raise _ => false end.

(* ================================================================== *)
(** * Python floats *)
(* ================================================================== *)

Module PyFloat.
Local Open Scope Z_scope.

(** [float(z)], exact for [|z| < 2^53]. *)
Definition of_Z (z : Z) : float :=
  match z with
  | Z0 => PrimFloat.zero
  | Zpos _ => PrimFloat.of_uint63 (Uint63.of_Z z)
  | Zneg p => PrimFloat.opp (PrimFloat.of_uint63 (Uint63.of_Z (Zpos p)))
  end.

(** [a / b] on integers: the correctly rounded quotient. *)
Definition truediv (a b : Z) : float := PrimFloat.div (of_Z a) (of_Z b).

(** [n / d] rounded to the nearest integer, ties to even, for [0 < d]. *)
Definition round_half_even (n d : Z) : Z :=
  let q := n / d in
  let r := n mod d in
  match 2 * r ?= d with
  | Lt => q
  | Gt => q + 1
  | Eq => if Z.even q then q else q + 1
  end.

(** [round(x, 2)]: the decimal with two places nearest to the exact value
    of [x], ties to even, converted back to a float; exact for
    [|x| < 2^53 / 100]. *)
Definition round2 (x : float) : float :=
  match Prim2SF x with
  | S754_finite s m e =>
      let hundredths :=
        if 0 <=? e then Zpos m * 2 ^ e * 100
        else round_half_even (Zpos m * 100) (2 ^ (- e)) in
      let r := truediv hundredths 100 in
      if s then PrimFloat.opp r else r
  | _ => x
  end.

End PyFloat.

(* ================================================================== *)
(** * uuid.UUID and datetime *)
(* ================================================================== *)

Module PyUuid.
Import PyStr.

Definition is_brace (c : ascii) : bool :=
  Ascii.eqb c "{"%char || Ascii.eqb c "}"%char.

(** The white space that [int()] skips around a number: TAB..CR, space,
    NEL, NBSP; FS..US are not skipped there. *)
Definition is_int_space (c : ascii) : bool :=
  let n := nat_of_ascii c in
  ((9 <=? n) && (n <=? 13)) || (n =? 32) || (n =? 133) || (n =? 160).

(** Drops the leading characters that satisfy [p]. *)
Fixpoint lstrip_by (p : ascii -> bool) (s : string) : string :=
  match s with
  | EmptyString => EmptyString
  | String c r => if p c then lstrip_by p r else s
  end.

(** Drops the trailing characters that satisfy [p]. *)
Fixpoint rstrip_by (p : ascii -> bool) (s : string) : string :=
  match s with
  | EmptyString => EmptyString
  | String c r =>
      match rstrip_by p r with
      | EmptyString => if p c then EmptyString else String c EmptyString
      | r' => String c r'
      end
  end.

Definition is_hex_digit (c : ascii) : bool :=
  let n := nat_of_ascii c in
  ((48 <=? n) && (n <=? 57)) || ((65 <=? n) && (n <=? 70))
  || ((97 <=? n) && (n <=? 102)).

(** The digits of [int(s, 16)]: hexadecimal digits, single underscores
    between them. [prev_us] tells that the previous character was an
    underscore, [seen] that a digit was read. *)
Fixpoint hex_digits (prev_us seen : bool) (s : string) : bool :=
  match s with
  | EmptyString => seen && negb prev_us
  | String c r =>
      if Ascii.eqb c "_"%char then negb prev_us && hex_digits true seen r
      else is_hex_digit c && hex_digits false true r
  end.

Definition skip_sign (s : string) : string :=
  match s with
  | String c r =>
      if Ascii.eqb c "+"%char || Ascii.eqb c "-"%char then r else s
  | EmptyString => s
  end.

(** After the sign: an optional [0x] or [0X], after which one underscore
    may stand; the digits may not begin with an underscore. *)
Definition skip_base_prefix (s : string) : string :=
  match s with
  | String "0" (String c r) =>
      if Ascii.eqb c "x"%char || Ascii.eqb c "X"%char then
        match r with
        | String "_" r' => r'
        | _ => r
        end
      else s
  | _ => s
  end.

(** [int(s, 16)] returns (does not raise [ValueError]). *)
Definition int16_parses (s : string) : bool :=
  let body :=
    skip_base_prefix
      (skip_sign (lstrip_by is_int_space (rstrip_by is_int_space s))) in
  match body with
  | String "_" _ => false
  | _ => hex_digits false false body
  end.

(** [uuid.UUID(hex)] returns (does not raise [ValueError]). *)
Definition UUID_parses (hex : string) : bool :=
  let hex := remove_all "uuid:" (remove_all "urn:" hex) in
  let hex := remove_all "-" (lstrip_by is_brace (rstrip_by is_brace hex)) in
  (String.length hex =? 32) && int16_parses hex.

End PyUuid.

Module PyDatetime.
Local Open Scope N_scope.

(** A naive [datetime]; a record whose fields leave the ranges of
    [datetime] stands for an object that is not one. *)
Record datetime : Type := mk_datetime {
  year : N; month : N; day : N;
  hour : N; minute : N; second : N; microsecond : N
}.

Definition is_leap (y : N) : bool :=
  ((y mod 4 =? 0) && negb (y mod 100 =? 0)) || (y mod 400 =? 0).

Definition days_in_month (y m : N) : N :=
  if m =? 2 then (if is_leap y then 29 else 28)
  else if (m =? 4) || (m =? 6) || (m =? 9) || (m =? 11) then 30
  else 31.

(** The ranges the [datetime] constructor enforces. *)
Definition is_datetime (t : datetime) : bool :=
  (1 <=? year t) && (year t <=? 9999)
  && (1 <=? month t) && (month t <=? 12)
  && (1 <=? day t) && (day t <=? days_in_month (year t) (month t))
  && (hour t <=? 23) && (minute t <=? 59) && (second t <=? 59)
  && (microsecond t <=? 999999).

Definition digit_char (d : N) : ascii := ascii_of_N (48 + d).

Definition digit_val (c : ascii) : option N :=
  let n := N_of_ascii c in
  if (48 <=? n) && (n <=? 57) then Some (n - 48) else None.

(** ['%0wd' % x] for [x < 10^w]. *)
Fixpoint pad (w : nat) (x : N) : string :=
  match w with
  | O => EmptyString
  | S k => (pad k (x / 10) ++ String (digit_char (x mod 10)) EmptyString)%string
  end.

(** [t.isoformat()]: [YYYY-MM-DDTHH:MM:SS], then [.ffffff] unless the
    microsecond is 0. *)
Definition isoformat (t : datetime) : string :=
  (pad 4 (year t) ++ "-" ++ pad 2 (month t) ++ "-" ++ pad 2 (day t) ++ "T"
   ++ pad 2 (hour t) ++ ":" ++ pad 2 (minute t) ++ ":" ++ pad 2 (second t)
   ++ (if (microsecond t =? 0)%N then "" else "." ++ pad 6 (microsecond t)))%string.

(** Reads [w] decimal digits. *)
Fixpoint read_num (w : nat) (acc : N) (s : string) : option (N * string) :=
  match w with
  | O => Some (acc, s)
  | S k =>
      match s with
      | EmptyString => None
      | String c r =>
          match digit_val c with
          | Some d => read_num k (10 * acc + d) r
          | None => None
          end
      end
  end.

Definition read_char (c : ascii) (s : string) : option string :=
  match s with
  | String c' r => if Ascii.eqb c c' then Some r else None
  | EmptyString => None
  end.

Definition obind {A B : Type} (m : option A) (k : A -> option B) : option B :=
  match m with Some a => k a | None => None end.

(** [datetime.fromisoformat(s)] on the two layouts [isoformat] writes for
    a naive datetime; [None] stands for [ValueError]. The library reads
    further ISO 8601 spellings, which the package never writes. *)
Definition fromisoformat (s : string) : option datetime :=
  obind (read_num 4 0 s) (fun '(y, s) =>
  obind (read_char "-" s) (fun s =>
  obind (read_num 2 0 s) (fun '(mo, s) =>
  obind (read_char "-" s) (fun s =>
  obind (read_num 2 0 s) (fun '(d, s) =>
  obind (read_char "T" s) (fun s =>
  obind (read_num 2 0 s) (fun '(h, s) =>
  obind (read_char ":" s) (fun s =>
  obind (read_num 2 0 s) (fun '(mi, s) =>
  obind (read_char ":" s) (fun s =>
  obind (read_num 2 0 s) (fun '(sec, s) =>
  obind (match s with
         | EmptyString => Some 0
         | _ => obind (read_char "." s) (fun s =>
                obind (read_num 6 0 s) (fun '(us, s) =>
                match s with EmptyString => Some us | _ => None end))
         end) (fun us =>
  let t := mk_datetime y mo d h mi sec us in
  if is_datetime t then Some t else None)))))))))))).

End PyDatetime.

(* ================================================================== *)
(** * models.py *)
(* ================================================================== *)

Module Models.
Import PyStr PyDatetime.
Local Open Scope result_scope.

(** [not s] for an [Optional[str]]: [None] and the empty string. *)
Definition opt_is_empty (o : option string) : bool :=
  match o with
  | None => true
  | Some s => is_empty s
  end.

Record JokeResponse : Type := mk_JokeResponse {
  jr_joke_id : string;
  jr_joke_text : string;
  jr_category : string;
  jr_success : bool;
  jr_timestamp : datetime;
  jr_error_message : option string
}.

(** [JokeResponse.validate]; the [isinstance] tests on typed fields
    always pass and are left out. *)
Definition JokeResponse_validate (r : JokeResponse) : result unit :=
  raise_if (is_empty (jr_joke_id r))
    (ValueError "joke_id must be a non-empty string") ;;
  raise_if (negb (PyUuid.UUID_parses (jr_joke_id r)))
    (ValueError "joke_id must be a valid UUID string") ;;
  raise_if (is_empty (jr_category r))
    (ValueError "category must be a non-empty string") ;;
  raise_if (negb (is_datetime (jr_timestamp r)))
    (ValueError "timestamp must be a datetime object") ;;
  raise_if (jr_success r && is_empty (strip (jr_joke_text r)))
    (ValueError "Successful responses must have non-empty joke_text") ;;
  raise_if (negb (jr_success r) && opt_is_empty (jr_error_message r))
    (ValueError "Failed responses must have an error_message") ;;
  Ok tt.

(** The dataclass constructor: [__init__] then [__post_init__]. *)
Definition new_JokeResponse (r : JokeResponse) : result JokeResponse :=
  JokeResponse_validate r ;; Ok r.

(** [JokeResponse.create_success]; [uuid4] and [now] are what
    [str(uuid.uuid4())] and [datetime.now()] return. *)
Definition create_success (uuid4 : string) (now : datetime)
    (joke_text category : string) : result JokeResponse :=
  new_JokeResponse (mk_JokeResponse uuid4 joke_text category true now None).

(** [JokeResponse.create_error] *)
Definition create_error (uuid4 : string) (now : datetime)
    (error_message category : string) : result JokeResponse :=
  new_JokeResponse
    (mk_JokeResponse uuid4 "" category false now (Some error_message)).

Record FeedbackEntry : Type := mk_FeedbackEntry {
  fe_joke_id : string;
  fe_joke_text : string;
  fe_category : string;
  fe_rating : Z;
  fe_timestamp : datetime;
  fe_user_comment : option string
}.

(** [FeedbackEntry.validate] *)
Definition FeedbackEntry_validate (e : FeedbackEntry) : result unit :=
  raise_if (is_empty (fe_joke_id e))
    (ValueError "joke_id must be a non-empty string") ;;
  raise_if (negb (PyUuid.UUID_parses (fe_joke_id e)))
    (ValueError "joke_id must be a valid UUID string") ;;
  raise_if (is_empty (fe_category e))
    (ValueError "category must be a non-empty string") ;;
  raise_if (negb ((1 <=? fe_rating e)%Z && (fe_rating e <=? 5)%Z))
    (ValueError "rating must be between 1 and 5 (inclusive)") ;;
  raise_if (negb (is_datetime (fe_timestamp e)))
    (ValueError "timestamp must be a datetime object") ;;
  Ok tt.

Definition new_FeedbackEntry (e : FeedbackEntry) : result FeedbackEntry :=
  FeedbackEntry_validate e ;; Ok e.

(** [FeedbackEntry.create] *)
Definition FeedbackEntry_create (now : datetime)
    (joke_id joke_text category : string) (rating : Z)
    (user_comment : option string) : result FeedbackEntry :=
  new_FeedbackEntry
    (mk_FeedbackEntry joke_id joke_text category rating now user_comment).

Record BedrockConfig : Type := mk_BedrockConfig {
  bc_model_id : string;
  bc_max_tokens : Z;
  bc_temperature : float;
  bc_top_p : float
}.

(** [BedrockConfig.validate] *)
Definition BedrockConfig_validate (c : BedrockConfig) : result unit :=
  raise_if (is_empty (bc_model_id c))
    (ValueError "model_id must be a non-empty string") ;;
  raise_if (bc_max_tokens c <=? 0)%Z
    (ValueError "max_tokens must be positive") ;;
  raise_if (4000 <? bc_max_tokens c)%Z
    (ValueError "max_tokens must be 4000 or less") ;;
  raise_if (negb (PrimFloat.leb 0 (bc_temperature c)
                  && PrimFloat.leb (bc_temperature c) 1))
    (ValueError "temperature must be between 0.0 and 1.0") ;;
  raise_if (negb (PrimFloat.leb 0 (bc_top_p c)
                  && PrimFloat.leb (bc_top_p c) 1))
    (ValueError "top_p must be between 0.0 and 1.0") ;;
  Ok tt.

Definition new_BedrockConfig (c : BedrockConfig) : result BedrockConfig :=
  BedrockConfig_validate c ;; Ok c.

End Models.

(* ================================================================== *)
(** * config.py *)
(* ================================================================== *)

Module Config.

Definition DEFAULT_MODEL_ID : string :=
  "us.anthropic.claude-sonnet-4-20250514-v1:0".
Definition DEFAULT_AWS_REGION : string := "us-east-1".
Definition MAX_TOKENS : Z := 200.
Definition TEMPERATURE : float := 0.7.
Definition TOP_P : float := 0.9.

Definition API_TIMEOUT_SECONDS : Z := 10.
Definition MAX_RETRIES : Z := 3.

Definition AVAILABLE_CATEGORIES : list string :=
  [ "general"; "programming"; "dad-jokes"; "puns"; "clean" ].

Definition FEEDBACK_RATING_MIN : Z := 1.
Definition FEEDBACK_RATING_MAX : Z := 5.

Definition EXIT_GENERAL_ERROR : Z := 1.
Definition EXIT_INVALID_ARGUMENTS : Z := 2.
Definition EXIT_AWS_CREDENTIALS_ERROR : Z := 3.
Definition EXIT_AWS_ACCESS_DENIED : Z := 4.
Definition EXIT_NETWORK_ERROR : Z := 5.
Definition EXIT_SERVICE_UNAVAILABLE : Z := 6.
Definition EXIT_RATE_LIMITED : Z := 7.

(** A format string, split at its replacement fields. *)
Inductive segment : Type :=
| Lit (text : string)
| Field (name : string).

Definition template : Type := list segment.

Record error_entry : Type := mk_error_entry {
  ee_message : template;
  ee_guidance : list template;
  ee_exit_code : Z
}.

(** The entries of [ERROR_MESSAGES] that the modelled code looks up. *)
Definition ERROR_MESSAGES : list (string * error_entry) :=
  [ ("no_credentials",
     mk_error_entry
       [Lit "AWS credentials not found."]
       [ [Lit "Configure credentials using one of these methods:"];
         [Lit "  1. Run 'aws configure' to set up default credentials"];
         [Lit "  2. Set AWS_PROFILE environment variable to use a specific profile"];
         [Lit "  3. Use IAM roles if running on EC2/ECS/Lambda"];
         [Lit "  4. Set AWS_ACCESS_KEY_ID and AWS_SECRET_ACCESS_KEY environment variables"] ]
       EXIT_AWS_CREDENTIALS_ERROR);
    ("invalid_profile",
     mk_error_entry
       [Lit "AWS profile '"; Field "profile"; Lit "' not found."]
       [ [Lit "Check available profiles:"];
         [Lit "  1. Run 'aws configure list-profiles' to see available profiles"];
         [Lit "  2. Verify the profile name is spelled correctly"];
         [Lit "  3. Create the profile using 'aws configure --profile ";
          Field "profile"; Lit "'"] ]
       EXIT_AWS_CREDENTIALS_ERROR);
    ("access_denied",
     mk_error_entry
       [Lit "Access denied to Bedrock model '"; Field "model_id"; Lit "'."]
       [ [Lit "Request access to the model:"];
         [Lit "  1. Go to AWS Bedrock console (https://console.aws.amazon.com/bedrock/)"];
         [Lit "  2. Navigate to 'Model access' in the left sidebar"];
         [Lit "  3. Request access to '"; Field "model_id"; Lit "' model"];
         [Lit "  4. Wait for approval (usually takes a few minutes)"];
         [Lit "  5. Ensure your IAM user/role has 'bedrock:InvokeModel' permission"] ]
       EXIT_AWS_ACCESS_DENIED);
    ("invalid_category",
     mk_error_entry
       [Lit "Invalid joke category '"; Field "category"; Lit "'."]
       [ [Lit "Available categories: "; Field "available_categories"];
         [Lit "Use --help to see all available options."] ]
       EXIT_INVALID_ARGUMENTS);
    ("network_error",
     mk_error_entry
       [Lit "Network connection error occurred."]
       [ [Lit "Troubleshooting steps:"];
         [Lit "  1. Check your internet connection"];
         [Lit "  2. Verify AWS service status at https://status.aws.amazon.com/"];
         [Lit "  3. Check if you're behind a corporate firewall"];
         [Lit "  4. Try again in a few moments"] ]
       EXIT_NETWORK_ERROR);
    ("service_unavailable",
     mk_error_entry
       [Lit "AWS Bedrock service is currently unavailable."]
       [ [Lit "This is usually temporary:"];
         [Lit "  1. Check AWS service status at https://status.aws.amazon.com/"];
         [Lit "  2. Wait a few minutes and try again"];
         [Lit "  3. Try a different AWS region if the issue persists"] ]
       EXIT_SERVICE_UNAVAILABLE);
    ("rate_limit",
     mk_error_entry
       [Lit "Rate limit exceeded for AWS Bedrock API."]
       [ [Lit "You're making requests too quickly:"];
         [Lit "  1. Wait 30-60 seconds before trying again"];
         [Lit "  2. Consider requesting higher rate limits in AWS console"];
         [Lit "  3. Implement exponential backoff in automated scripts"] ]
       EXIT_RATE_LIMITED);
    ("timeout_error",
     mk_error_entry
       [Lit "Request timed out after "; Field "timeout"; Lit " seconds."]
       [ [Lit "The request took too long to complete:"];
         [Lit "  1. Check your network connection stability"];
         [Lit "  2. Try again - this may be a temporary issue"];
         [Lit "  3. Consider using a different AWS region if problems persist"] ]
       EXIT_NETWORK_ERROR);
    ("model_not_found",
     mk_error_entry
       [Lit "Bedrock model '"; Field "model_id";
        Lit "' not found or not available."]
       [ [Lit "Model availability issues:"];
         [Lit "  1. Verify the model ID is correct"];
         [Lit "  2. Check if the model is available in your AWS region"];
         [Lit "  3. Ensure you have requested access to this model"];
         [Lit "  4. Try using the default model: "; Field "default_model"] ]
       EXIT_GENERAL_ERROR);
    ("empty_response",
     mk_error_entry
       [Lit "The AI model returned an empty response."]
       [ [Lit "This can happen occasionally:"];
         [Lit "  1. Try generating another joke"];
         [Lit "  2. Try a different category"];
         [Lit "  3. If this persists, there may be an issue with the model"] ]
       EXIT_GENERAL_ERROR) ].

End Config.

(* ================================================================== *)
(** * error_handler.py: [ErrorHandler.format_error_message] *)
(* ================================================================== *)

Module ErrorHandler.
Import Config.

Fixpoint lookup {A : Type} (key : string) (d : list (string * A)) : option A :=
  match d with
  | [] => None
  | (k, v) :: rest => if String.eqb k key then Some v else lookup key rest
  end.

(** [t.format] with the keyword arguments [kwargs]; [None] stands for [KeyError]. *)
Fixpoint format (t : template) (kwargs : list (string * string))
  : option string :=
  match t with
  | [] => Some EmptyString
  | Lit s :: rest => option_map (String.append s) (format rest kwargs)
  | Field name :: rest =>
      match lookup name kwargs with
      | Some v => option_map (String.append v) (format rest kwargs)
      | None => None
      end
  end.

(** The format string as written, braces included. *)
Fixpoint raw (t : template) : string :=
  match t with
  | [] => EmptyString
  | Lit s :: rest => (s ++ raw rest)%string
  | Field name :: rest => ("{" ++ name ++ "}" ++ raw rest)%string
  end.

(** [try: t.format(...) except KeyError: t] *)
Definition format_or_raw (kwargs : list (string * string)) (t : template)
  : string :=
  match format t kwargs with
  | Some s => s
  | None => raw t
  end.

Record error_info : Type := mk_error_info {
  message : string;
  guidance : list string;
  exit_code : Z
}.

Definition format_error_message (error_code : string)
    (kwargs : list (string * string)) : error_info :=
  match lookup error_code ERROR_MESSAGES with
  | None =>
      mk_error_info ("Unknown error: " ++ error_code)%string
                    ["Please report this issue to the developers."] 1
  | Some entry =>
      mk_error_info (format_or_raw kwargs (ee_message entry))
                    (map (format_or_raw kwargs) (ee_guidance entry))
                    (ee_exit_code entry)
  end.

End ErrorHandler.

(* ================================================================== *)
(** * prompts.py *)
(* ================================================================== *)

Module Prompts.
Import Config.

Definition PROMPT_general : string :=
"Generate a clean, family-friendly joke that would be appropriate for all audiences. 
The joke should be clever, witty, and make people smile. Avoid any offensive content, 
controversial topics, or inappropriate language. Keep it light-hearted and fun.

Please provide just the joke text without any additional commentary or explanation.".

Definition PROMPT_programming : string :=
"Generate a programming or computer science related joke that developers would appreciate. 
The joke can reference coding concepts, programming languages, software development practices, 
debugging, or tech culture. Make it clever and relatable to people in the tech industry.
Keep it clean and professional.

Please provide just the joke text without any additional commentary or explanation.".

Definition PROMPT_dad_jokes : string :=
"Generate a classic dad joke - the kind that makes people groan and laugh at the same time. 
It should be a simple, punny, wholesome joke with a predictable but amusing punchline. 
Think of the type of joke a father might tell at a family dinner that gets eye rolls 
but secret smiles. Keep it clean and family-friendly.

Please provide just the joke text without any additional commentary or explanation.".

Definition PROMPT_puns : string :=
"Generate a clever pun-based joke that plays with words, double meanings, or similar sounds. 
The humor should come from wordplay, clever linguistic twists, or unexpected word associations. 
Make it witty and clever, the kind that makes people appreciate the creativity of language.
Keep it clean and appropriate for all audiences.

Please provide just the joke text without any additional commentary or explanation.".

Definition PROMPT_clean : string :=
"Generate a wholesome, clean joke that is completely appropriate for children and families. 
Avoid any adult themes, innuendo, or potentially offensive content. The joke should be 
innocent, sweet, and the kind you'd feel comfortable sharing with anyone. 
Focus on simple, cheerful humor that brings joy.

Please provide just the joke text without any additional commentary or explanation.".

Definition JOKE_PROMPTS : list (string * string) :=
  [ ("general", PROMPT_general);
    ("programming", PROMPT_programming);
    ("dad-jokes", PROMPT_dad_jokes);
    ("puns", PROMPT_puns);
    ("clean", PROMPT_clean) ].

(** [category in AVAILABLE_CATEGORIES] *)
Definition validate_category (category : string) : bool :=
  existsb (String.eqb category) AVAILABLE_CATEGORIES.

Definition get_available_categories : list string := AVAILABLE_CATEGORIES.

(** [random.choice(AVAILABLE_CATEGORIES)]; [pick] is the index the
    generator draws. *)
Definition get_random_category (pick : nat) : string :=
  nth (pick mod List.length AVAILABLE_CATEGORIES) AVAILABLE_CATEGORIES
      "general".

(** [get_joke_prompt] for a given category. *)
Definition get_joke_prompt (category : string) : result string :=
  match ErrorHandler.lookup category JOKE_PROMPTS with
  | None =>
      Raise (ValueError ("Invalid category '" ++ category
                         ++ "'. Available categories: "
                         ++ String.concat ", " AVAILABLE_CATEGORIES)%string)
  | Some prompt => Ok prompt
  end.

End Prompts.

(* ================================================================== *)
(** * JSON values *)
(* ================================================================== *)

Set Warnings "-register-all".

(** What [json.load] returns and [json.dump] takes; a [dict] keeps its
    keys in insertion order. *)
Inductive json : Type :=
| JNull
| JBool (b : bool)
| JInt (z : Z)
| JFloat (f : float)
| JStr (s : string)
| JList (l : list json)
| JDict (d : list (string * json)).

Module PyDict.

(** [type(v).__name__] *)
Definition type_name (v : json) : string :=
  match v with
  | JNull => "NoneType"
  | JBool _ => "bool"
  | JInt _ => "int"
  | JFloat _ => "float"
  | JStr _ => "str"
  | JList _ => "list"
  | JDict _ => "dict"
  end.

(** [d.get(key)] on the items of a dict. *)
Definition get {A : Type} (key : string) (d : list (string * A)) : option A :=
  ErrorHandler.lookup key d.

(** [d[key] = v]: replaces the value in place, or adds the key last. *)
Fixpoint set {A : Type} (key : string) (v : A) (d : list (string * A))
  : list (string * A) :=
  match d with
  | [] => [(key, v)]
  | (k, old) :: rest =>
      if String.eqb k key then (k, v) :: rest else (k, old) :: set key v rest
  end.

(** [v[key]] for a string [key]. *)
Definition subscript (v : json) (key : string) : result json :=
  match v with
  | JDict d =>
      match get key d with
      | Some x => Ok x
      | None => Raise (KeyError_of key)
      end
  | JList _ =>
      Raise (TypeError "list indices must be integers or slices, not str")
  | JStr _ => Raise (TypeError "string indices must be integers, not 'str'")
  | _ => Raise (TypeError ("'" ++ type_name v
                           ++ "' object is not subscriptable")%string)
  end.

(** [v[key] = x] for a string [key], [v] being known to answer [v[...]]. *)
Definition assign (v : json) (key : string) (x : json) : result json :=
  match v with
  | JDict d => Ok (JDict (set key x d))
  | _ => Raise (TypeError ("'" ++ type_name v
                           ++ "' object does not support item assignment")%string)
  end.

(** [not v] *)
Definition falsy (v : json) : bool :=
  match v with
  | JNull => true
  | JBool b => negb b
  | JInt z => (z =? 0)%Z
  | JFloat f => PrimFloat.eqb f 0
  | JStr s => PyStr.is_empty s
  | JList l => match l with [] => true | _ => false end
  | JDict d => match d with [] => true | _ => false end
  end.

End PyDict.

(* ================================================================== *)
(** * feedback_storage.py *)
(* ================================================================== *)

Module FeedbackStorage.
Import PyStr PyDatetime Models PyDict.
Local Open Scope result_scope.

(** The storage file, by what the three steps of [_load_feedback_data]
    meet: [storage_file.exists()], [open(storage_file, 'r')] and
    [json.load(f)]. The model has no JSON parser: a state says what the
    library does on the bytes of the file, with the exception it raises. *)
Inductive file_state : Type :=
| Absent                      (* [exists()] is false *)
| ExistsRaises (e : exn)      (* [exists()] raises [e] *)
| OpenRaises (e : exn)        (* [exists()] is true, [open] raises [e] *)
| LoadRaises (content : string) (e : exn)
    (* the file opens and holds the bytes [content], on which [json.load]
       raises [e] *)
| Document (data : json).     (* [json.load] returns [data] *)

(** A file that cannot be opened for want of permission. *)
Definition Unreadable : file_state :=
  OpenRaises (OSError "[Errno 13] Permission denied").

(** A file whose bytes, here FF FE 7B 7D, are not UTF-8 text. *)
Definition NotUtf8 : file_state :=
  LoadRaises (String (ascii_of_nat 255) (String (ascii_of_nat 254) "{}"))
             (UnicodeDecodeError
              "'utf-8' codec can't decode byte 0xff in position 0: invalid start byte").

(** A file that holds [text], which is text but not a JSON document;
    the message is that of [json.load] on an empty text, and the store
    does not look at it. *)
Definition NotJson (text : string) : file_state :=
  LoadRaises text
    (JSONDecodeError "Expecting value: line 1 column 1 (char 0)").

(** What happens when the file is opened for writing and [json.dump]
    writes to it. *)
Inductive write_outcome : Type :=
| Written                                   (* the whole text is written *)
| OpenFails (err : string)                  (* [open(..., 'w')] raises [IOError] *)
| WriteFails (err : string) (flushed : string).
    (* [open] has emptied the file, then a write raises [IOError] after
       [flushed], a proper prefix of the text, reached the file *)

Definition empty_stats : json :=
  JDict [ ("total_jokes", JInt 0);
          ("average_rating", JFloat 0);
          ("category_stats", JDict []) ].

Definition empty_data : json :=
  JDict [ ("feedback_entries", JList []); ("stats", empty_stats) ].

(** [except (json.JSONDecodeError, IOError)]: the classes the clause of
    [_load_feedback_data] names. *)
Definition caught_on_load (e : exn) : bool :=
  match e with
  | JSONDecodeError _ | OSError _ => true
  | _ => false
  end.

(** [_load_feedback_data]: [exists()] is called outside the [try], [open]
    and [json.load] inside it. *)
Definition _load_feedback_data (fs : file_state) : result json :=
  match fs with
  | Absent => Ok empty_data
  | ExistsRaises e => Raise e
  | OpenRaises e | LoadRaises _ e =>
      if caught_on_load e then Ok empty_data else Raise e
  | Document data => Ok data
  end.

Definition _save_feedback_data (fs : file_state) (data : json)
    (w : write_outcome) : file_state * result unit :=
  match w with
  | Written => (Document data, Ok tt)
  | OpenFails err =>
      (fs, Raise (RuntimeError ("Failed to save feedback data: " ++ err)%string))
  | WriteFails err flushed =>
      (NotJson flushed,
       Raise (RuntimeError ("Failed to save feedback data: " ++ err)%string))
  end.

Definition opt_str_json (o : option string) : json :=
  match o with
  | None => JNull
  | Some s => JStr s
  end.

Definition _feedback_entry_to_dict (entry : FeedbackEntry) : json :=
  JDict [ ("joke_id", JStr (fe_joke_id entry));
          ("joke_text", JStr (fe_joke_text entry));
          ("category", JStr (fe_category entry));
          ("rating", JInt (fe_rating entry));
          ("timestamp", JStr (isoformat (fe_timestamp entry)));
          ("user_comment", opt_str_json (fe_user_comment entry)) ].

Definition FeedbackEntry_fields : list string :=
  [ "joke_id"; "joke_text"; "category"; "rating"; "timestamp"; "user_comment" ].

(** A keyword argument of [FeedbackEntry(...)] that has no default. *)
Definition required (key : string) (d : list (string * json)) : result json :=
  match get key d with
  | Some v => Ok v
  | None =>
      Raise (TypeError ("__init__() missing 1 required positional argument: '"
                        ++ key ++ "'")%string)
  end.

(** [FeedbackEntry( **entry_dict)] on the values read from the file: the
    keywords are bound, then [validate] runs with its [isinstance] tests. *)
Definition FeedbackEntry_from_items (d : list (string * json))
    (timestamp : option datetime) : result FeedbackEntry :=
  raise_if (negb (forallb (fun kv => existsb (String.eqb (fst kv))
                                             FeedbackEntry_fields) d))
    (TypeError "__init__() got an unexpected keyword argument") ;;
  joke_id <- required "joke_id" d ;;
  joke_text <- required "joke_text" d ;;
  category <- required "category" d ;;
  rating <- required "rating" d ;;
  _ <- required "timestamp" d ;;
  joke_id <- match joke_id with
             | JStr s => Ok s
             | _ => Raise (ValueError "joke_id must be a non-empty string")
             end ;;
  raise_if (is_empty joke_id)
    (ValueError "joke_id must be a non-empty string") ;;
  raise_if (negb (PyUuid.UUID_parses joke_id))
    (ValueError "joke_id must be a valid UUID string") ;;
  joke_text <- match joke_text with
               | JStr s => Ok s
               | _ => Raise (ValueError "joke_text must be a string")
               end ;;
  category <- match category with
              | JStr s => Ok s
              | _ => Raise (ValueError "category must be a non-empty string")
              end ;;
  raise_if (is_empty category)
    (ValueError "category must be a non-empty string") ;;
  rating <- match rating with
            | JInt z => Ok z
            | JBool b => Ok (if b then 1%Z else 0%Z)
            | _ => Raise (ValueError "rating must be an integer")
            end ;;
  raise_if (negb ((1 <=? rating)%Z && (rating <=? 5)%Z))
    (ValueError "rating must be between 1 and 5 (inclusive)") ;;
  timestamp <- match timestamp with
               | Some t => Ok t
               | None => Raise (ValueError "timestamp must be a datetime object")
               end ;;
  user_comment <- match get "user_comment" d with
                  | None | Some JNull => Ok None
                  | Some (JStr s) => Ok (Some s)
                  | Some _ =>
                      Raise (ValueError "user_comment must be a string or None")
                  end ;;
  Ok (mk_FeedbackEntry joke_id joke_text category rating timestamp user_comment).

Definition _dict_to_feedback_entry (entry_dict : json) : result FeedbackEntry :=
  timestamp <- subscript entry_dict "timestamp" ;;
  timestamp <- match timestamp with
               | JStr s =>
                   match fromisoformat s with
                   | Some t => Ok (Some t)
                   | None => Raise (ValueError "Invalid isoformat string")
                   end
               | _ => Ok None
               end ;;
  match entry_dict with
  | JDict d => FeedbackEntry_from_items d timestamp
  | _ => Raise (TypeError "argument after ** must be a mapping")
  end.

(** The rating of a stored entry as a number to add up. Entries whose
    rating is an integer and whose category is a string, the only ones the
    store writes, are treated exactly; for any other the model raises
    [TypeError], as Python does unless the rating is a float or the category
    a number, a boolean or null. *)
Definition rating_of (entry : json) : result Z :=
  rating <- subscript entry "rating" ;;
  match rating with
  | JInt z => Ok z
  | JBool b => Ok (if b then 1%Z else 0%Z)
  | _ => Raise (TypeError "unsupported operand type(s) for +")
  end.

Definition category_of (entry : json) : result string :=
  category <- subscript entry "category" ;;
  match category with
  | JStr s => Ok s
  | _ => Raise (TypeError "unhashable type")
  end.

(** [sum(entry["rating"] for entry in entries)] *)
Fixpoint sum_ratings (entries : list json) (total : Z) : result Z :=
  match entries with
  | [] => Ok total
  | entry :: rest => r <- rating_of entry ;; sum_ratings rest (total + r)%Z
  end.

(** [d[key] += r], after [d[key] = 0] when the key is new. *)
Definition bump (key : string) (r : Z) (d : list (string * Z))
  : list (string * Z) :=
  match get key d with
  | None => set key r d
  | Some old => set key (old + r)%Z d
  end.

(** The loop over the entries that fills [category_counts] and
    [category_ratings]. *)
Fixpoint tally (entries : list json)
    (category_counts category_ratings : list (string * Z))
  : result (list (string * Z) * list (string * Z)) :=
  match entries with
  | [] => Ok (category_counts, category_ratings)
  | entry :: rest =>
      category <- category_of entry ;;
      rating <- rating_of entry ;;
      tally rest (bump category 1 category_counts)
                 (bump category rating category_ratings)
  end.

Definition category_entry (count total : Z) : json :=
  let avg_rating :=
    if (0 <? count)%Z then PyFloat.truediv total count else PrimFloat.zero in
  JDict [ ("count", JInt count);
          ("avg_rating", JFloat (PyFloat.round2 avg_rating)) ].

(** The loop [for category in category_counts] that fills
    [category_stats]. *)
Definition build_category_stats (category_counts category_ratings : list (string * Z))
  : list (string * json) :=
  map (fun kv =>
         let category := fst kv in
         let count := snd kv in
         let total := match get category category_ratings with
                      | Some t => t
                      | None => 0%Z
                      end in
         (category, category_entry count total))
      category_counts.

(** [_update_statistics(data)]; returns [data] as the call leaves it. *)
Definition _update_statistics (data : json) : result json :=
  entries <- subscript data "feedback_entries" ;;
  if falsy entries then assign data "stats" empty_stats
  else
    match entries with
    | JList l =>
        let total_jokes := Z.of_nat (List.length l) in
        total_rating <- sum_ratings l 0 ;;
        let average_rating :=
          if (0 <? total_jokes)%Z
          then PyFloat.truediv total_rating total_jokes
          else PrimFloat.zero in
        tallies <- tally l [] [] ;;
        let category_stats :=
          build_category_stats (fst tallies) (snd tallies) in
        assign data "stats"
          (JDict [ ("total_jokes", JInt total_jokes);
                   ("average_rating", JFloat (PyFloat.round2 average_rating));
                   ("category_stats", JDict category_stats) ])
    | JStr _ | JDict _ =>
        (* the items are strings: [entry["rating"]] raises *)
        Raise (TypeError "string indices must be integers, not 'str'")
    | _ =>
        Raise (TypeError ("object of type '" ++ type_name entries
                          ++ "' has no len()")%string)
    end.

(** [data["feedback_entries"].append(entry_dict)] *)
Definition append_entry (data entry_dict : json) : result json :=
  entries <- subscript data "feedback_entries" ;;
  match entries with
  | JList l => assign data "feedback_entries" (JList (l ++ [entry_dict]))
  | _ => Raise (AttributeError ("'" ++ type_name entries
                                ++ "' object has no attribute 'append'")%string)
  end.

Definition save_feedback (fs : file_state) (feedback : FeedbackEntry)
    (w : write_outcome) : file_state * result unit :=
  match (data <- _load_feedback_data fs ;;
         data <- append_entry data (_feedback_entry_to_dict feedback) ;;
         _update_statistics data) with
  | Raise e => (fs, Raise e)
  | Ok data => _save_feedback_data fs data w
  end.

Definition get_feedback_stats (fs : file_state) : result json :=
  data <- _load_feedback_data fs ;;
  subscript data "stats".

(** The loop of [get_all_feedback]: an entry that raises [KeyError],
    [ValueError] or [TypeError] is skipped. *)
Fixpoint read_entries (l : list json) : result (list FeedbackEntry) :=
  match l with
  | [] => Ok []
  | entry_dict :: rest =>
      match _dict_to_feedback_entry entry_dict with
      | Ok entry => entries <- read_entries rest ;; Ok (entry :: entries)
      | Raise (KeyError _) | Raise (ValueError _) | Raise (TypeError _) =>
          read_entries rest
      | Raise e => Raise e
      end
  end.

Definition get_all_feedback (fs : file_state) : result (list FeedbackEntry) :=
  data <- _load_feedback_data fs ;;
  entries <- subscript data "feedback_entries" ;;
  match entries with
  | JList l => read_entries l
  | JStr _ | JDict _ => Ok []
      (* the items are strings: each raises [TypeError] and is skipped *)
  | _ => Raise (TypeError ("'" ++ type_name entries
                           ++ "' object is not iterable")%string)
  end.

Definition clear_all_feedback (fs : file_state) (w : write_outcome)
  : file_state * result unit :=
  _save_feedback_data fs empty_data w.

End FeedbackStorage.

(* ================================================================== *)
(** * bedrock_client.py *)
(* ================================================================== *)

Module Bedrock.
Import PyStr Models Config PyDict.
Local Open Scope result_scope.

(** [botocore.config.Config(...)] as [_get_client] builds it. *)
Record sdk_config : Type := mk_sdk_config {
  region_name : string;
  retries_max_attempts : Z;
  retries_mode : string;
  read_timeout : Z;
  connect_timeout : Z
}.

(** A call on the SDK client, with its keyword arguments; the [body] of
    [invoke_model] is the value given to [json.dumps]. *)
Inductive request : Type :=
| Converse (modelId : string) (messages inferenceConfig : json)
| InvokeModel (modelId : string) (body : json).

Inductive converse_answer : Type :=
| ConverseReturns (response : json)
| ConverseRaises (e : exn).

(** The body of an [invoke_model] response, as [json.loads] takes it, with
    its [str]; or a body that [json.loads] rejects. *)
Inductive invoke_answer : Type :=
| InvokeReturns (response_body : json) (response_body_str : string)
| InvokeBodyNotJson (msg : string)
| InvokeRaises (e : exn).

(** The SDK and the service behind it. [sdk_new_client] is
    [_create_session()] then [session.client('bedrock-runtime', ...)]:
    [None] when both return. A call is answered from its request and the
    number of requests the client has sent before. *)
Record Sdk : Type := mk_Sdk {
  sdk_new_client : option string -> sdk_config -> option exn;
  sdk_converse : nat -> request -> converse_answer;
  sdk_invoke_model : nat -> request -> invoke_answer
}.

(** A [BedrockClient]; [requests] is not a field of the class: it logs
    the calls made on the SDK client, oldest first. *)
Record BedrockClient : Type := mk_BedrockClient {
  profile : option string;
  region : string;
  _client : option sdk_config;
  requests : list request
}.

(** [BedrockClient(profile=profile, region=None)] *)
Definition create_bedrock_client (profile : option string) : BedrockClient :=
  mk_BedrockClient profile DEFAULT_AWS_REGION None [].

Definition sent (self : BedrockClient) (req : request) : BedrockClient :=
  mk_BedrockClient (profile self) (region self) (_client self)
                   (requests self ++ [req]).

Definition with_client (self : BedrockClient) (config : sdk_config)
  : BedrockClient :=
  mk_BedrockClient (profile self) (region self) (Some config) (requests self).

(** [error.response.get('Error', {}).get('Code', 'Unknown')] *)
Definition error_code (code : option string) : string :=
  match code with
  | Some c => c
  | None => "Unknown"
  end.

Definition message_of (error_code : string) (kwargs : list (string * string))
  : string :=
  ErrorHandler.message (ErrorHandler.format_error_message error_code kwargs).

(** The test that selects the Converse API. *)
Definition uses_converse (model_id : string) : bool :=
  contains (lower model_id) "claude"
  && (contains (lower model_id) "claude-3"
      || contains (lower model_id) "claude-sonnet-4").

Definition user_message (text : string) : json :=
  JList [ JDict [ ("role", JStr "user");
                  ("content", JList [ JDict [ ("text", JStr text) ] ]) ] ].

Definition probe_request : request :=
  if uses_converse DEFAULT_MODEL_ID then
    Converse DEFAULT_MODEL_ID (user_message "test")
      (JDict [ ("maxTokens", JInt 1); ("temperature", JFloat 0.1);
               ("topP", JFloat 0.9) ])
  else if contains (lower DEFAULT_MODEL_ID) "claude" then
    InvokeModel DEFAULT_MODEL_ID
      (JDict [ ("prompt", JStr (String nl (String nl "Human: test"
                                ++ String nl (String nl "Assistant:"))));
               ("max_tokens_to_sample", JInt 1);
               ("temperature", JFloat 0.1); ("top_p", JFloat 0.9) ])
  else
    InvokeModel DEFAULT_MODEL_ID
      (JDict [ ("inputText", JStr "test");
               ("textGenerationConfig",
                JDict [ ("maxTokenCount", JInt 1);
                        ("temperature", JFloat 0.1) ]) ]).

Definition is_access_error (code : string) : bool :=
  String.eqb code "AccessDeniedException"
  || String.eqb code "UnauthorizedOperation".

(** The exception, if any, that the probe call raises. *)
Definition raised_by_probe (sdk : Sdk) (self : BedrockClient) : option exn :=
  match probe_request with
  | Converse _ _ _ =>
      match sdk_converse sdk (List.length (requests self)) probe_request with
      | ConverseReturns _ => None
      | ConverseRaises e => Some e
      end
  | InvokeModel _ _ =>
      match sdk_invoke_model sdk (List.length (requests self)) probe_request with
      | InvokeReturns _ _ | InvokeBodyNotJson _ => None
      | InvokeRaises e => Some e
      end
  end.

Definition _test_credentials (sdk : Sdk) (self : BedrockClient)
  : BedrockClient * result unit :=
  let self' := sent self probe_request in
  (* the inner [try]: a [ClientError] other than an access error is dropped *)
  let inner :=
    match raised_by_probe sdk self with
    | None => Ok tt
    | Some (ClientError code message msg) =>
        if is_access_error (error_code code)
        then Raise (ClientError code message msg)
        else Ok tt
    | Some e => Raise e
    end in
  (* the outer [except ClientError] *)
  match inner with
  | Raise (ClientError code message msg) =>
      if is_access_error (error_code code) then
        (self', Raise (BedrockClientError
                         (message_of "access_denied"
                                     [("model_id", "bedrock-runtime")])))
      else if String.eqb (error_code code) "InvalidUserID.NotFound" then
        (self', Raise (BedrockClientError
                         (message_of "invalid_profile"
                            [("profile",
                              match profile self with
                              | Some p => if is_empty p then "default" else p
                              | None => "default"
                              end)])))
      else (self', Raise (ClientError code message msg))
  | r => (self', r)
  end.

Definition client_config (self : BedrockClient) : sdk_config :=
  mk_sdk_config (region self) MAX_RETRIES "adaptive"
                API_TIMEOUT_SECONDS API_TIMEOUT_SECONDS.

Definition _get_client (sdk : Sdk) (self : BedrockClient)
  : BedrockClient * result unit :=
  match _client self with
  | Some _ => (self, Ok tt)
  | None =>
      let attempt :=
        match sdk_new_client sdk (profile self) (client_config self) with
        | Some e => (self, Raise e)
        | None => _test_credentials sdk (with_client self (client_config self))
        end in
      match attempt with
      | (self, Ok tt) => (self, Ok tt)
      | (self, Raise (NoCredentialsError _))
      | (self, Raise (PartialCredentialsError _)) =>
          (self, Raise (BedrockClientError (message_of "no_credentials" [])))
      | (self, Raise (ClientError code _ msg)) =>
          if String.eqb (error_code code) "UnauthorizedOperation" then
            (self, Raise (BedrockClientError
                            (message_of "access_denied"
                                        [("model_id", "bedrock-runtime")])))
          else
            (self, Raise (BedrockClientError
                            ("AWS client error (" ++ error_code code ++ "): "
                             ++ msg)%string))
      | (self, Raise e) =>
          (self, Raise (BedrockClientError
                          ("Failed to initialize Bedrock client: "
                           ++ exn_str e)%string))
      end
  end.

(** [v.get(key, default)] *)
Definition py_get (v : json) (key : string) (default : json) : result json :=
  match v with
  | JDict d =>
      Ok (match get key d with
          | Some x => x
          | None => default
          end)
  | _ => Raise (AttributeError ("'" ++ type_name v
                                ++ "' object has no attribute 'get'")%string)
  end.

(** [v[0]] *)
Definition item0 (v : json) : result json :=
  match v with
  | JList (x :: _) => Ok x
  | JList [] => Raise (IndexError "list index out of range")
  | JStr (String c _) => Ok (JStr (String c EmptyString))
  | JStr EmptyString => Raise (IndexError "string index out of range")
  | JDict _ => Raise (KeyError "0")
  | _ => Raise (TypeError ("'" ++ type_name v
                           ++ "' object is not subscriptable")%string)
  end.

(** [len(v)], for its exception only. *)
Definition has_len (v : json) : result unit :=
  match v with
  | JList _ | JStr _ | JDict _ => Ok tt
  | _ => Raise (TypeError ("object of type '" ++ type_name v
                           ++ "' has no len()")%string)
  end.

(** The end of both invocation paths: the empty-response test, then
    [return generated_text.strip()]. *)
Definition stripped_text (generated_text : json) : result string :=
  if falsy generated_text
  then Raise (BedrockClientError "Model returned empty response")
  else
    match generated_text with
    | JStr s =>
        if is_empty (strip s)
        then Raise (BedrockClientError "Model returned empty response")
        else Ok (strip s)
    | _ => Raise (AttributeError ("'" ++ type_name generated_text
                                  ++ "' object has no attribute 'strip'")%string)
    end.

Definition _invoke_with_converse_api (sdk : Sdk) (self : BedrockClient)
    (prompt : string) (config : BedrockConfig) : BedrockClient * result string :=
  let req :=
    Converse (bc_model_id config) (user_message prompt)
      (JDict [ ("maxTokens", JInt (bc_max_tokens config));
               ("temperature", JFloat (bc_temperature config));
               ("topP", JFloat (bc_top_p config)) ]) in
  (sent self req,
   match sdk_converse sdk (List.length (requests self)) req with
   | ConverseRaises e => Raise e
   | ConverseReturns response =>
       output <- py_get response "output" (JDict []) ;;
       message <- py_get output "message" (JDict []) ;;
       content <- py_get message "content" (JList []) ;;
       generated_text <-
         (if falsy content
          then Raise (BedrockClientError "Model returned empty response")
          else has_len content ;;
               first <- item0 content ;;
               py_get first "text" (JStr "")) ;;
       stripped_text generated_text
   end).

Definition legacy_request_body (prompt : string) (config : BedrockConfig) : json :=
  if contains (lower (bc_model_id config)) "titan" then
    JDict [ ("inputText", JStr prompt);
            ("textGenerationConfig",
             JDict [ ("maxTokenCount", JInt (bc_max_tokens config));
                     ("temperature", JFloat (bc_temperature config));
                     ("topP", JFloat (bc_top_p config));
                     ("stopSequences", JList []) ]) ]
  else if contains (lower (bc_model_id config)) "claude" then
    JDict [ ("prompt", JStr (String nl (String nl "Human: ") ++ prompt
                             ++ String nl (String nl "Assistant:")));
            ("max_tokens_to_sample", JInt (bc_max_tokens config));
            ("temperature", JFloat (bc_temperature config));
            ("top_p", JFloat (bc_top_p config)) ]
  else
    JDict [ ("prompt", JStr prompt);
            ("max_tokens", JInt (bc_max_tokens config));
            ("temperature", JFloat (bc_temperature config));
            ("top_p", JFloat (bc_top_p config)) ].

(** [a or b], the second operand being computed only when needed. *)
Definition py_or (a : json) (b : result json) : result json :=
  if falsy a then b else Ok a.

Definition legacy_generated_text (config : BedrockConfig)
    (response_body : json) (response_body_str : string) : result json :=
  if contains (lower (bc_model_id config)) "titan" then
    results <- py_get response_body "results" (JList [JDict []]) ;;
    first <- item0 results ;;
    py_get first "outputText" (JStr "")
  else if contains (lower (bc_model_id config)) "claude" then
    py_get response_body "completion" (JStr "")
  else
    a <- py_get response_body "generated_text" JNull ;;
    py_or a (b <- py_get response_body "text" JNull ;;
    py_or b (c <- py_get response_body "output" JNull ;;
    py_or c (Ok (JStr response_body_str)))).

Definition _invoke_with_legacy_api (sdk : Sdk) (self : BedrockClient)
    (prompt : string) (config : BedrockConfig) : BedrockClient * result string :=
  let req := InvokeModel (bc_model_id config)
                         (legacy_request_body prompt config) in
  (sent self req,
   match sdk_invoke_model sdk (List.length (requests self)) req with
   | InvokeRaises e => Raise e
   | InvokeBodyNotJson msg => Raise (JSONDecodeError msg)
   | InvokeReturns response_body response_body_str =>
       generated_text <-
         legacy_generated_text config response_body response_body_str ;;
       stripped_text generated_text
   end).

(** [_handle_client_error]: the [BedrockClientError] it raises. *)
Definition _handle_client_error (code message : option string) (msg : string)
    (model_id : string) : exn :=
  let error_message := match message with
                       | Some m => m
                       | None => msg
                       end in
  let c := error_code code in
  if String.eqb c "AccessDeniedException" then
    BedrockClientError (message_of "access_denied" [("model_id", model_id)])
  else if String.eqb c "ThrottlingException" then
    BedrockClientError (message_of "rate_limit" [])
  else if String.eqb c "ServiceUnavailableException" then
    BedrockClientError (message_of "service_unavailable" [])
  else if String.eqb c "ValidationException" then
    BedrockClientError ("Invalid request: " ++ error_message)%string
  else if String.eqb c "ResourceNotFoundException" then
    BedrockClientError (message_of "model_not_found"
                          [("model_id", model_id);
                           ("default_model", DEFAULT_MODEL_ID)])
  else
    BedrockClientError ("AWS API error (" ++ c ++ "): " ++ error_message)%string.

(** [str(n)] for an integer. *)
Definition str_of_Z (n : Z) : string :=
  DecimalString.NilZero.string_of_int (Z.to_int n).

(** The [except] clauses of [invoke_model], in their order. *)
Definition invoke_model_handler (e : exn) (model_id : string) : exn :=
  match e with
  | ClientError code message msg => _handle_client_error code message msg model_id
  | ConnectionError msg | ReadTimeoutError msg =>
      if contains (lower msg) "timeout" then
        BedrockClientError
          (message_of "timeout_error" [("timeout", str_of_Z API_TIMEOUT_SECONDS)])
      else BedrockClientError (message_of "network_error" [])
  | JSONDecodeError _ =>
      BedrockClientError "Invalid response format from Bedrock API"
  | NoCredentialsError msg | PartialCredentialsError msg | BotoCoreError msg =>
      BedrockClientError ("AWS SDK error: " ++ msg)%string
  | _ => BedrockClientError ("Unexpected error: " ++ exn_str e)%string
  end.

Definition invoke_model (sdk : Sdk) (self : BedrockClient) (prompt : string)
    (config : BedrockConfig) : BedrockClient * result string :=
  let body :=
    match _get_client sdk self with
    | (self, Raise e) => (self, Raise e)
    | (self, Ok tt) =>
        if uses_converse (bc_model_id config)
        then _invoke_with_converse_api sdk self prompt config
        else _invoke_with_legacy_api sdk self prompt config
    end in
  match body with
  | (self, Ok text) => (self, Ok text)
  | (self, Raise e) =>
      (self, Raise (invoke_model_handler e (bc_model_id config)))
  end.

End Bedrock.

(* ================================================================== *)
(** * joke_service.py *)
(* ================================================================== *)

(** What [JokeService] asks of its client: to be created for a profile
    and to answer [invoke_model(prompt, config)], changing its state. *)
Class Gateway (C : Type) : Type := mk_Gateway {
  gw_create : option string -> C;
  gw_invoke_model : C -> string -> Models.BedrockConfig -> C * result string
}.


(** A scripted client, as the unit tests inject: every call returns or
    raises [side_effect]; [call_args] lists the calls made. *)
Record MockClient : Type := mk_MockClient {
  call_args : list (string * Models.BedrockConfig)
}.

Definition MockGateway (side_effect : result string) : Gateway MockClient :=
  mk_Gateway MockClient
    (fun _ => mk_MockClient [])
    (fun self prompt config =>
       (mk_MockClient (call_args self ++ [(prompt, config)]), side_effect)).

Module JokeService.
Import PyStr PyDatetime Models Config Prompts FeedbackStorage.
Local Open Scope result_scope.

(** What the run draws from outside: the index [random.choice] picks, and
    the values of the successive calls of [uuid.uuid4()] and
    [datetime.now()], numbered from 0 within one operation. *)
Record Runtime : Type := mk_Runtime {
  rt_pick : nat;
  rt_uuid4 : nat -> string;
  rt_now : nat -> datetime
}.

Section WithGateway.
Context {C : Type} {G : Gateway C}.

(** A [JokeService]: its client, if one is set, and the file behind its
    [FeedbackStorage]. *)
Record JokeService : Type := mk_JokeService {
  _bedrock_client : option C;
  _feedback_storage : file_state
}.

(** The result of [generate_joke]: the service as the call leaves it, the
    calls of [invoke_model] it made, and what it returns or raises. *)
Record generated : Type := mk_generated {
  g_service : JokeService;
  g_invoked : list (string * BedrockConfig);
  g_outcome : result JokeResponse
}.

(** [category or "unknown"] *)
Definition or_unknown (category : string) : string :=
  if is_empty category then "unknown" else category.

(** The [try] block of [generate_joke] from [if model_id is None] on,
    [category] being a valid category. Returns the service, the calls
    made, the number of responses constructed, and the result. *)
Definition generate_for_category (rt : Runtime) (self : JokeService)
    (category : string) (aws_profile model_id : option string)
  : JokeService * list (string * BedrockConfig) * nat * result JokeResponse :=
  let model_id := match model_id with
                  | None => DEFAULT_MODEL_ID
                  | Some m => m
                  end in
  match get_joke_prompt category with
  | Raise e => (self, [], 0, Raise e)
  | Ok prompt =>
      match new_BedrockConfig
              (mk_BedrockConfig model_id MAX_TOKENS TEMPERATURE TOP_P) with
      | Raise e => (self, [], 0, Raise e)
      | Ok bedrock_config =>
          (* [_get_bedrock_client(profile=aws_profile)] *)
          let client := match _bedrock_client self with
                        | Some c => c
                        | None => gw_create aws_profile
                        end in
          let '(client, answer) :=
            gw_invoke_model client prompt bedrock_config in
          let self := mk_JokeService (Some client) (_feedback_storage self) in
          let invoked := [(prompt, bedrock_config)] in
          match answer with
          | Raise e => (self, invoked, 0, Raise e)
          | Ok joke_text =>
              let cleaned_joke := Cleaner._clean_joke_text joke_text in
              if is_empty (strip cleaned_joke) then
                let error_info :=
                  ErrorHandler.format_error_message "empty_response" [] in
                (self, invoked, 1,
                 create_error (rt_uuid4 rt 0) (rt_now rt 0)
                              (ErrorHandler.message error_info) category)
              else
                (self, invoked, 1,
                 create_success (rt_uuid4 rt 0) (rt_now rt 0)
                                cleaned_joke category)
          end
      end
  end.

(** The value of the local variable [category] once the first statement
    of the [try] block has run. *)
Definition category_used (rt : Runtime) (category : option string) : string :=
  match category with
  | None => get_random_category (rt_pick rt)
  | Some c => c
  end.

(** The [try] block of [generate_joke]. *)
Definition generate_joke_try (rt : Runtime) (self : JokeService)
    (category aws_profile model_id : option string)
  : JokeService * list (string * BedrockConfig) * nat * result JokeResponse :=
  match category with
  | None =>
      generate_for_category rt self (get_random_category (rt_pick rt))
                            aws_profile model_id
  | Some category =>
      if negb (validate_category category) then
        let available := String.concat ", " get_available_categories in
        let error_info :=
          ErrorHandler.format_error_message "invalid_category"
            [("category", category); ("available_categories", available)] in
        (self, [], 1,
         create_error (rt_uuid4 rt 0) (rt_now rt 0)
                      (ErrorHandler.message error_info) category)
      else generate_for_category rt self category aws_profile model_id
  end.

(** [JokeService.generate_joke]: the [try] block, then the two [except]
    clauses, which construct their response after those of the block. *)
Definition generate_joke (rt : Runtime) (self : JokeService)
    (category aws_profile model_id : option string) : generated :=
  let '(self, invoked, made, outcome) :=
    generate_joke_try rt self category aws_profile model_id in
  match outcome with
  | Ok response => mk_generated self invoked (Ok response)
  | Raise (BedrockClientError msg) =>
      mk_generated self invoked
        (create_error (rt_uuid4 rt made) (rt_now rt made)
                      msg (or_unknown (category_used rt category)))
  | Raise e =>
      mk_generated self invoked
        (create_error (rt_uuid4 rt made) (rt_now rt made)
                      ("Unexpected error: " ++ exn_str e)%string
                      (or_unknown (category_used rt category)))
  end.

(** [JokeService.collect_user_feedback]; [w] is what the write of the
    storage file meets, should the call reach it. *)
Definition collect_user_feedback (rt : Runtime) (w : write_outcome)
    (self : JokeService) (joke_response : JokeResponse) (rating : Z)
    (user_comment : option string) : JokeService * bool :=
  if negb (jr_success joke_response) then (self, false)
  else
    match FeedbackEntry_create (rt_now rt 0)
            (jr_joke_id joke_response) (jr_joke_text joke_response)
            (jr_category joke_response) rating user_comment with
    | Raise _ => (self, false)
    | Ok feedback =>
        let '(fs, saved) := save_feedback (_feedback_storage self) feedback w in
        (mk_JokeService (_bedrock_client self) fs,
         match saved with
         | Ok _ => true
         | Raise _ => false
         end)
    end.

End WithGateway.
Arguments JokeService C : clear implicits.
Arguments generated C : clear implicits.

End JokeService.

(* ================================================================== *)
(** * models.py: [JokeRequest] *)
(* ================================================================== *)

Module Requests.
Import PyStr.
Local Open Scope result_scope.







End Requests.

(* ================================================================== *)
(** * feedback_storage.py: [get_feedback_by_category] *)
(* ================================================================== *)

Module FeedbackQueries.
Import Models FeedbackStorage.
Local Open Scope result_scope.


End FeedbackQueries.

(* ================================================================== *)
(** * joke_service.py: statistics *)
(* ================================================================== *)

Module Reports.
Import Models FeedbackStorage JokeService.
Local Open Scope Z_scope.



Section WithClient.
Context {C : Type}.



End WithClient.

End Reports.

(* ================================================================== *)
(** * joke_service.py: [prompt_for_feedback] *)
(* ================================================================== *)

Module PyInt.
Import PyStr.
Local Open Scope Z_scope.

(** The digits of [int(s)]: decimal digits, single underscores between
    them. [prev_digit] tells that the previous character was a digit. *)
Fixpoint digits10 (prev_digit : bool) (acc : Z) (s : string) : option Z :=
  match s with
  | EmptyString => if prev_digit then Some acc else None
  | String c r =>
      if Ascii.eqb c "_"%char then
        if prev_digit then digits10 false acc r else None
      else
        match PyDatetime.digit_val c with
        | Some d => digits10 true (10 * acc + Z.of_N d) r
        | None => None
        end
  end.

(** [int(s)] for a string; [None] stands for [ValueError]. The limit of
    4300 digits, beyond which [int] raises [ValueError] too, is left
    out. *)
Definition int10 (s : string) : option Z :=
  let body :=
    PyUuid.lstrip_by PyUuid.is_int_space
      (PyUuid.rstrip_by PyUuid.is_int_space s) in
  match body with
  | String "-" r => option_map Z.opp (digits10 false 0 r)
  | String "+" r => digits10 false 0 r
  | _ => digits10 false 0 body
  end.

End PyInt.

Module FeedbackPrompt.
Import PyStr Config.
Local Open Scope Z_scope.

(** What a call of [input()] meets: a line typed, the end of the input,
    an interrupt from the keyboard, or any other exception. *)
Inductive keyboard : Type :=
| Line (text : string)
| EndOfFile
| Interrupt
| Broken (e : exn).

(** The [while True] loop that asks for the rating, on the calls of
    [input()] still to come; a list that is used up is the end of the
    input. Returns the rating, [None] when the function is to return
    [(None, None)], and the calls left. What the loop prints is not
    modelled, and printing is taken not to raise. *)
Fixpoint rating_loop (inputs : list keyboard) : option Z * list keyboard :=
  match inputs with
  | [] => (None, [])
  | Line text :: rest =>
      let rating_input := lower (strip text) in
      if String.eqb rating_input "s" || String.eqb rating_input "skip"
      then (None, rest)
      else
        match PyInt.int10 rating_input with
        | Some rating =>
            if (FEEDBACK_RATING_MIN <=? rating) && (rating <=? FEEDBACK_RATING_MAX)
            then (Some rating, rest)
            else rating_loop rest
        | None => rating_loop rest
        end
  | _ :: rest => (None, rest)
  end.

(** [JokeService.prompt_for_feedback]: the pair it returns and the calls
    of [input()] left. *)
Definition prompt_for_feedback (inputs : list keyboard)
  : (option Z * option string) * list keyboard :=
  match rating_loop inputs with
  | (None, rest) => ((None, None), rest)
  | (Some rating, rest) =>
      match rest with
      | [] => ((None, None), [])
      | Line text :: rest =>
          let comment_input := strip text in
          ((Some rating,
            if is_empty comment_input then None else Some comment_input),
           rest)
      | _ :: rest => ((None, None), rest)
      end
  end.

End FeedbackPrompt.

(* ================================================================== *)
(** * bedrock_client.py: [test_connection] *)
(* ================================================================== *)

Module BedrockConnection.
Import Bedrock.


End BedrockConnection.

(* ================================================================== *)
(** * The properties of the specification, as definitions *)
(* ================================================================== *)

Module Spec.
Import PyStr PyDatetime Models Config PyDict FeedbackStorage.

(** The invariant of [JokeResponse] as the specification words it:
    [success] gates, exclusively, a non-empty text and a present error
    message. *)
Definition exclusive_invariant (r : JokeResponse) : Prop :=
  (jr_success r = true ->
   jr_joke_text r <> EmptyString /\ jr_error_message r = None)
  /\ (jr_success r = false ->
      jr_error_message r <> None /\ jr_joke_text r = EmptyString).

(** What [validate] gates on [success]. *)
Definition gated_invariant (r : JokeResponse) : Prop :=
  (jr_success r = true -> is_empty (strip (jr_joke_text r)) = false)
  /\ (jr_success r = false ->
      exists m, jr_error_message r = Some m /\ m <> EmptyString).

(** The runtime hands out well-formed identifiers and timestamps, as
    [uuid.uuid4()] and [datetime.now()] do. *)
Definition well_formed_draws (rt : JokeService.Runtime) : Prop :=
  forall n, PyUuid.UUID_parses (JokeService.rt_uuid4 rt n) = true
            /\ is_datetime (JokeService.rt_now rt n) = true.


(** The entries are validated ones, as the constructor of
    [FeedbackEntry] leaves them. *)
Definition valid_entries (entries : list FeedbackEntry) : Prop :=
  Forall (fun e => FeedbackEntry_validate e = Ok tt) entries.

(** [save_feedback] for each entry in turn, every write succeeding. *)
Fixpoint save_all (fs : file_state) (entries : list FeedbackEntry) : file_state :=
  match entries with
  | [] => fs
  | e :: rest => save_all (fst (save_feedback fs e Written)) rest
  end.

(** The states of the storage file that the store itself produces: from
    no file, by [save_feedback] of validated entries and by
    [clear_all_feedback], whatever each write meets. *)
Inductive persisted : file_state -> Prop :=
| persisted_absent : persisted Absent
| persisted_save fs e w :
    persisted fs ->
    FeedbackEntry_validate e = Ok tt ->
    persisted (fst (save_feedback fs e w))
| persisted_clear fs w :
    persisted fs ->
    persisted (fst (clear_all_feedback fs w)).

(** The aggregate statistics as the specification words them, from the
    entries that [get_all_feedback] returns. *)
Definition ratings_in (category : string) (entries : list FeedbackEntry) : list Z :=
  map fe_rating (filter (fun e => String.eqb (fe_category e) category) entries).

Definition sum_Z (l : list Z) : Z := fold_right Z.add 0%Z l.

(** The average of some ratings rounded to 2 decimals; 0 when there is
    none. *)
Definition average_rating (ratings : list Z) : float :=
  match ratings with
  | [] => PrimFloat.zero
  | _ => PyFloat.round2
           (PyFloat.truediv (sum_Z ratings) (Z.of_nat (List.length ratings)))
  end.

(** The entry of the per-category map: absent for a category without
    entries, else its count and average. *)
Definition category_breakdown (category : string) (entries : list FeedbackEntry)
  : option json :=
  match ratings_in category entries with
  | [] => None
  | ratings =>
      Some (JDict [ ("count", JInt (Z.of_nat (List.length ratings)));
                    ("avg_rating", JFloat (average_rating ratings)) ])
  end.

(** A statistics object agrees with a list of entries. *)
Definition stats_agree (stats : json) (entries : list FeedbackEntry) : Prop :=
  exists category_stats,
    stats = JDict [ ("total_jokes", JInt (Z.of_nat (List.length entries)));
                    ("average_rating",
                     JFloat (average_rating (map fe_rating entries)));
                    ("category_stats", JDict category_stats) ]
    /\ NoDup (map fst category_stats)
    /\ forall category,
         get category category_stats = category_breakdown category entries.

(** The generation request that [invoke_model] sends for a prompt. *)
Definition generation_request (prompt : string) (config : BedrockConfig)
  : Bedrock.request :=
  if Bedrock.uses_converse (bc_model_id config) then
    Bedrock.Converse (bc_model_id config) (Bedrock.user_message prompt)
      (JDict [ ("maxTokens", JInt (bc_max_tokens config));
               ("temperature", JFloat (bc_temperature config));
               ("topP", JFloat (bc_top_p config)) ])
  else
    Bedrock.InvokeModel (bc_model_id config)
                        (Bedrock.legacy_request_body prompt config).

End Spec.

(* ================================================================== *)
(** * Definitions that the proofs use *)
(* ================================================================== *)

Module ProofDefs.
Import PyStr Models FeedbackStorage Spec.

(** [s] does not begin with white space. *)
Definition starts_clean (s : string) : bool :=
  match s with
  | EmptyString => true
  | String c _ => negb (is_space c)
  end.

(** [s] does not end with white space. *)
Fixpoint ends_clean (s : string) : bool :=
  match s with
  | EmptyString => true
  | String c EmptyString => negb (is_space c)
  | String _ r => ends_clean r
  end.

(** [s] holds no line feed. *)
Fixpoint one_line (s : string) : bool :=
  match s with
  | EmptyString => true
  | String c r => negb (Ascii.eqb c nl) && one_line r
  end.

(** A line as [_clean_joke_text] joins them: not empty, trimmed, without
    line feed. *)
Definition tidy (s : string) : Prop :=
  s <> EmptyString /\ starts_clean s = true /\ ends_clean s = true
  /\ one_line s = true.

(** The document the store writes for given entries and statistics. *)
Definition store_doc (entries : list FeedbackEntry) (stats : json) : json :=
  JDict [ ("feedback_entries", JList (map _feedback_entry_to_dict entries));
          ("stats", stats) ].

(** Some entry has the given category. *)
Definition mentions (category : string) (entries : list FeedbackEntry) : bool :=
  existsb (fun e => String.eqb (fe_category e) category) entries.

(** The value under a key after [delta] was added for it, the key being
    known before or [present] since. *)
Definition merged (before : option Z) (present : bool) (delta : Z) : option Z :=
  match before with
  | Some v => Some (v + delta)%Z
  | None => if present then Some delta else None
  end.

(** The storage file loads as the document of validated entries with
    statistics that agree with them. *)
Definition holds (fs : file_state) (entries : list FeedbackEntry) : Prop :=
  exists stats,
    _load_feedback_data fs = Ok (store_doc entries stats)
    /\ stats_agree stats entries
    /\ valid_entries entries.

End ProofDefs.

(* ================================================================== *)
(** * Concrete inputs *)
(* ================================================================== *)

Module Samples.
Import PyDatetime Models Config FeedbackStorage Bedrock JokeService.

Definition sample_uuid : string := "123e4567-e89b-12d3-a456-426614174000".

Definition sample_time : datetime := mk_datetime 2024 1 15 10 30 45 123456.

(** A runtime that always draws the same identifier and timestamp. *)
Definition sample_runtime : Runtime :=
  mk_Runtime 0 (fun _ => sample_uuid) (fun _ => sample_time).

Definition sample_joke : string := "Why did the chicken cross the road?".

Definition good_response : JokeResponse :=
  mk_JokeResponse sample_uuid sample_joke "general" true sample_time None.

(** A successful response that carries an error message. *)
Definition success_with_error : JokeResponse :=
  mk_JokeResponse sample_uuid sample_joke "general" true sample_time
                  (Some "API Error").

(** A failed response that carries a joke text. *)
Definition failure_with_text : JokeResponse :=
  mk_JokeResponse sample_uuid sample_joke "general" false sample_time
                  (Some "API Error").

Definition first_entry : FeedbackEntry :=
  mk_FeedbackEntry sample_uuid "Joke one" "programming" 5 sample_time None.

Definition second_entry : FeedbackEntry :=
  mk_FeedbackEntry sample_uuid "Joke two" "general" 3
                   (mk_datetime 2024 2 29 23 59 59 0) (Some "funny").

(** The storage file after [first_entry] was saved to a new store. *)
Definition one_entry_file : file_state :=
  fst (save_feedback Absent first_entry Written).

(** A record as the store writes them, but rated 6. *)
Definition overrated_record : json :=
  JDict [ ("joke_id", JStr sample_uuid);
          ("joke_text", JStr "Joke zero");
          ("category", JStr "programming");
          ("rating", JInt 6);
          ("timestamp", JStr "2024-01-15T10:30:45.123456");
          ("user_comment", JNull) ].

(** Statistics that count that record. *)
Definition overrated_stats : json :=
  JDict [ ("total_jokes", JInt 1); ("average_rating", JFloat 6);
          ("category_stats",
           JDict [ ("programming",
                    JDict [ ("count", JInt 1); ("avg_rating", JFloat 6) ]) ]) ].

(** A storage file that holds that record and those statistics. *)
Definition overrated_file : file_state :=
  Document (JDict [ ("feedback_entries", JList [overrated_record]);
                    ("stats", overrated_stats) ]).

(** The statistics of two entries of one category rated 6 and 5. *)
Definition drifted_stats : json :=
  JDict [ ("total_jokes", JInt 2); ("average_rating", JFloat 5.5);
          ("category_stats",
           JDict [ ("programming",
                    JDict [ ("count", JInt 2);
                            ("avg_rating", JFloat 5.5) ]) ]) ].

(** The storage file of [first_entry] with its statistics set to the
    empty ones. *)
Definition edited_file : file_state :=
  Document (JDict [ ("feedback_entries",
                     JList [_feedback_entry_to_dict first_entry]);
                    ("stats", empty_stats) ]).


(** A service given a scripted client, as the unit tests build it. *)
Definition mock_service : JokeService MockClient :=
  @mk_JokeService MockClient (Some (mk_MockClient [])) Absent.

Definition default_config : BedrockConfig :=
  mk_BedrockConfig DEFAULT_MODEL_ID MAX_TOKENS TEMPERATURE TOP_P.

(** An SDK that creates its client and answers every call with the same
    joke. *)
Definition answering_sdk : Sdk :=
  mk_Sdk (fun _ _ => None)
         (fun _ _ =>
            ConverseReturns
              (JDict [ ("output",
                        JDict [ ("message",
                                 JDict [ ("content",
                                          JList [ JDict [ ("text", JStr sample_joke) ] ]) ]) ]) ]))
         (fun _ _ => InvokeReturns (JDict [ ("completion", JStr sample_joke) ])
                                   "{'completion': 'Why did the chicken cross the road?'}").

(** An SDK that finds no credentials when its client is created. *)
Definition no_credentials_sdk : Sdk :=
  mk_Sdk (fun _ _ => Some (NoCredentialsError "Unable to locate credentials"))
         (sdk_converse answering_sdk) (sdk_invoke_model answering_sdk).

End Samples.

(* ================================================================== *)
(** * Measures on stored data and on calls *)
(* ================================================================== *)

Module Measures.
Import PyStr Models Config PyDict FeedbackStorage JokeService.







(** The [total_jokes] of a statistics object. *)
Definition total_jokes (stats : json) : option Z :=
  match stats with
  | JDict d =>
      match get "total_jokes" d with
      | Some (JInt n) => Some n
      | _ => None
      end
  | _ => None
  end.








(** A response of the Converse API that carries one text. *)
Definition converse_response (text : string) : json :=
  JDict [ ("output",
           JDict [ ("message",
                    JDict [ ("content",
                             JList [ JDict [ ("text", JStr text) ] ]) ]) ]) ].

End Measures.

(* ================================================================== *)
(** * Further concrete inputs *)
(* ================================================================== *)

Module Scenarios.
Import Models FeedbackStorage Bedrock JokeService Samples.




End Scenarios.

(* ================================================================== *)
(* ================================================================== *)
(** * Theorems *)
(* ================================================================== *)
(* ================================================================== *)

(* ------------------------------------------------------------------ *)
(** ** Python text *)
(* ------------------------------------------------------------------ *)

Module PyStrFacts.
Import PyStr ProofDefs.

Lemma lstrip_starts_clean s : starts_clean (lstrip s) = true.
Proof.
  induction s as [|c r IH]; simpl; auto.
  destruct (is_space c) eqn:E; auto. simpl. now rewrite E.
Qed.

Lemma rstrip_ends_clean s : ends_clean (rstrip s) = true.
Proof.
  induction s as [|c r IH]; simpl; auto.
  destruct (rstrip r) as [|c' r'] eqn:E.
  - destruct (is_space c) eqn:Ec; simpl; auto. now rewrite Ec.
  - simpl in *. exact IH.
Qed.

Lemma lstrip_id s : starts_clean s = true -> lstrip s = s.
Proof.
  destruct s as [|c r]; simpl; auto.
  destruct (is_space c); simpl; auto; discriminate.
Qed.

Lemma rstrip_id s : ends_clean s = true -> rstrip s = s.
Proof.
  induction s as [|c r IH]; simpl; auto.
  destruct r as [|c' r'].
  - simpl. destruct (is_space c); simpl; auto; discriminate.
  - intros H. rewrite (IH H). reflexivity.
Qed.

Lemma lstrip_ends_clean s : ends_clean s = true -> ends_clean (lstrip s) = true.
Proof.
  induction s as [|c r IH]; intros H; [reflexivity|].
  cbn [lstrip]. destruct (is_space c) eqn:E; [|exact H].
  apply IH. destruct r as [|c' r']; [reflexivity | exact H].
Qed.

Lemma strip_starts_clean s : starts_clean (strip s) = true.
Proof. apply lstrip_starts_clean. Qed.

Lemma strip_ends_clean s : ends_clean (strip s) = true.
Proof. apply lstrip_ends_clean, rstrip_ends_clean. Qed.

Lemma strip_id s :
  starts_clean s = true -> ends_clean s = true -> strip s = s.
Proof.
  intros Hs He. unfold strip. rewrite (rstrip_id s He). now apply lstrip_id.
Qed.


Lemma lstrip_one_line s : one_line s = true -> one_line (lstrip s) = true.
Proof.
  induction s as [|c r IH]; simpl; auto.
  intros H. apply andb_prop in H as [Hc Hr].
  destruct (is_space c); auto. simpl. now rewrite Hc, Hr.
Qed.

Lemma rstrip_one_line s : one_line s = true -> one_line (rstrip s) = true.
Proof.
  induction s as [|c r IH]; simpl; auto.
  intros H. apply andb_prop in H as [Hc Hr]. specialize (IH Hr).
  destruct (rstrip r) as [|c' r'].
  - destruct (is_space c); simpl; auto. now rewrite Hc.
  - simpl in *. now rewrite Hc, IH.
Qed.

Lemma strip_one_line s : one_line s = true -> one_line (strip s) = true.
Proof. intros H. apply lstrip_one_line, rstrip_one_line, H. Qed.

Lemma split_nonempty sep s : split sep s <> [].
Proof.
  destruct s as [|c r]; simpl; [discriminate|].
  destruct (Ascii.eqb c sep); [discriminate|].
  destruct (split sep r); discriminate.
Qed.

Lemma split_one_line s : Forall (fun p => one_line p = true) (split nl s).
Proof.
  induction s as [|c r IH]; simpl.
  - repeat constructor.
  - destruct (Ascii.eqb c nl) eqn:E.
    + constructor; auto.
    + destruct (split nl r) as [|h t].
      * constructor; [simpl; now rewrite E | constructor].
      * inversion IH; subst. constructor; auto. simpl. now rewrite E.
Qed.

Lemma split_app_nl x rest :
  one_line x = true -> split nl (x ++ String nl rest) = x :: split nl rest.
Proof.
  induction x as [|c r IH]; simpl.
  - intros _. reflexivity.
  - intros H. apply andb_prop in H as [Hc Hr].
    apply negb_true_iff in Hc. rewrite Hc, (IH Hr). reflexivity.
Qed.

Lemma split_one_line_id x : one_line x = true -> split nl x = [x].
Proof.
  induction x as [|c r IH]; simpl; auto.
  intros H. apply andb_prop in H as [Hc Hr].
  apply negb_true_iff in Hc. rewrite Hc, (IH Hr). reflexivity.
Qed.

Lemma starts_clean_app x r :
  x <> EmptyString -> starts_clean (x ++ r) = starts_clean x.
Proof. destruct x; simpl; congruence. Qed.

Lemma ends_clean_app x r :
  r <> EmptyString -> ends_clean (x ++ r) = ends_clean r.
Proof.
  intros Hr. induction x as [|c x IH]; simpl; auto.
  destruct (x ++ r)%string eqn:E; auto.
  destruct x; simpl in E; congruence.
Qed.

Lemma join_tidy_nonempty ls :
  Forall tidy ls -> ls <> [] -> join (String nl EmptyString) ls <> EmptyString.
Proof.
  intros H Hne. destruct ls as [|x t]; [congruence|].
  inversion H as [|? ? [Hx _] Ht]; subst.
  unfold join; simpl. destruct t; auto.
  destruct x; simpl; congruence.
Qed.

Lemma join_tidy_clean ls :
  Forall tidy ls ->
  starts_clean (join (String nl EmptyString) ls) = true
  /\ ends_clean (join (String nl EmptyString) ls) = true.
Proof.
  unfold join. induction 1 as [|x t Hx Ht IH]; simpl; auto.
  destruct Hx as (Hne & Hs & He & _).
  destruct t as [|y t']; auto.
  split.
  - rewrite starts_clean_app; auto.
  - rewrite ends_clean_app by discriminate.
    change (ends_clean (String nl (String.concat (String nl EmptyString) (y :: t'))) = true).
    assert (Hj : String.concat (String nl EmptyString) (y :: t') <> EmptyString)
      by (apply (join_tidy_nonempty (y :: t')); [assumption | discriminate]).
    destruct (String.concat (String nl EmptyString) (y :: t')) eqn:E; [congruence|].
    simpl. apply IH.
Qed.

Lemma split_join ls :
  Forall tidy ls -> ls <> [] -> split nl (join (String nl EmptyString) ls) = ls.
Proof.
  unfold join. induction 1 as [|x t Hx Ht IH]; [congruence|]. intros _.
  destruct Hx as (_ & _ & _ & Hl).
  simpl. destruct t as [|y t'].
  - now apply split_one_line_id.
  - change (split nl (x ++ String nl (String.concat (String nl EmptyString) (y :: t'))) = x :: y :: t').
    rewrite (split_app_nl _ _ Hl), IH; [reflexivity | discriminate].
Qed.

End PyStrFacts.

(* ------------------------------------------------------------------ *)
(** ** [_clean_joke_text] *)
(* ------------------------------------------------------------------ *)

Module CleanerFacts.
Import PyStr ProofDefs PyStrFacts Cleaner.

Lemma nonblank_lines_tidy s : Forall tidy (nonblank_lines s).
Proof.
  unfold nonblank_lines.
  pose proof (split_one_line s) as H.
  induction (split nl s) as [|p ps IH]; simpl; [constructor|].
  inversion H; subst.
  destruct (is_empty (strip p)) eqn:E; simpl; auto.
  constructor; auto.
  repeat split.
  - destruct (strip p); [discriminate | congruence].
  - apply strip_starts_clean.
  - apply strip_ends_clean.
  - now apply strip_one_line.
Qed.

Lemma tidy_lines_kept ls :
  Forall tidy ls ->
  map strip (filter (fun line => negb (is_empty (strip line))) ls) = ls.
Proof.
  induction 1 as [|y ys Hy Hys IH]; simpl; auto.
  destruct Hy as (Hne & Hs & He & _).
  pose proof (strip_id y Hs He) as Hy. rewrite Hy.
  destruct y; [congruence|]. cbn [is_empty negb map]. now rewrite Hy, IH.
Qed.

Lemma nonblank_lines_join ls :
  Forall tidy ls -> nonblank_lines (join (String nl EmptyString) ls) = ls.
Proof.
  intros H. unfold nonblank_lines.
  destruct ls as [|x t]; [reflexivity|].
  rewrite split_join; [now apply tidy_lines_kept | assumption | discriminate].
Qed.

Lemma remove_prefix_none ps s :
  existsb (fun p => startswith (lower s) (lower p)) ps = false ->
  remove_prefix ps s = s.
Proof.
  induction ps as [|p ps IH]; simpl; auto.
  intros H. apply orb_false_elim in H as [H1 H2]. now rewrite H1, IH.
Qed.

Lemma remove_suffix_none ps s :
  existsb (fun p => endswith (lower s) (lower p)) ps = false ->
  remove_suffix ps s = s.
Proof.
  induction ps as [|p ps IH]; simpl; auto.
  intros H. apply orb_false_elim in H as [H1 H2]. now rewrite H1, IH.
Qed.

Lemma clean_fixed_point y ls :
  y = join (String nl EmptyString) ls -> Forall tidy ls ->
  has_lead_in y = false -> has_sign_off y = false ->
  _clean_joke_text y = y.
Proof.
  intros Hy Hls Hp Hs. unfold _clean_joke_text.
  destruct (join_tidy_clean ls Hls) as [Hsc Hec]. rewrite <- Hy in *.
  rewrite (strip_id y Hsc Hec).
  rewrite (remove_prefix_none _ _ Hp), (remove_suffix_none _ _ Hs).
  rewrite Hy at 1. rewrite nonblank_lines_join by assumption. now symmetry.
Qed.

(** C3. When the cleaned text neither begins with a listed lead-in nor
    ends with a listed sign-off, compared without regard to case, cleaning
    it again changes nothing: [clean(clean(x)) == clean(x)]. *)
Theorem clean_idempotent_without_boilerplate (x : string) :
  has_lead_in (_clean_joke_text x) = false ->
  has_sign_off (_clean_joke_text x) = false ->
  _clean_joke_text (_clean_joke_text x) = _clean_joke_text x.
Proof.
  intros Hp Hs.
  eapply clean_fixed_point; [| | exact Hp | exact Hs].
  - unfold _clean_joke_text at 1. reflexivity.
  - apply nonblank_lines_tidy.
Qed.

End CleanerFacts.

(* ------------------------------------------------------------------ *)
(** ** [isoformat] and [fromisoformat] *)
(* ------------------------------------------------------------------ *)

Module PyDatetimeFacts.
Import PyDatetime.
Local Open Scope N_scope.

Lemma digit_val_char d : d < 10 -> digit_val (digit_char d) = Some d.
Proof.
  intros H.
  assert (E : d = 0 \/ d = 1 \/ d = 2 \/ d = 3 \/ d = 4 \/ d = 5 \/ d = 6
              \/ d = 7 \/ d = 8 \/ d = 9) by lia.
  repeat (destruct E as [E|E]; [subst; reflexivity|]). subst. reflexivity.
Qed.

Lemma append_assoc (a b c : string) : ((a ++ b) ++ c = a ++ (b ++ c))%string.
Proof. induction a as [|x a IH]; simpl; congruence. Qed.

Lemma append_nil_r (a : string) : (a ++ "" = a)%string.
Proof. induction a as [|x a IH]; simpl; congruence. Qed.

Lemma read_num_pad k : forall j x acc rest,
  x < 10 ^ N.of_nat k ->
  read_num (k + j) acc (pad k x ++ rest)
  = read_num j (acc * 10 ^ N.of_nat k + x) rest.
Proof.
  induction k as [|k IH]; intros j x acc rest Hx.
  - simpl in *. f_equal. lia.
  - cbn [pad]. rewrite append_assoc. cbn [append].
    replace (S k + j)%nat with (k + S j)%nat by lia.
    rewrite IH.
    + cbn [read_num]. rewrite digit_val_char by (apply N.mod_lt; lia).
      f_equal. rewrite Nnat.Nat2N.inj_succ, N.pow_succ_r'.
      pose proof (N.div_mod x 10). lia.
    + rewrite Nnat.Nat2N.inj_succ, N.pow_succ_r' in Hx.
      apply N.Div0.div_lt_upper_bound. lia.
Qed.

Lemma read_num_pad_exact k x rest :
  x < 10 ^ N.of_nat k -> read_num k 0 (pad k x ++ rest) = Some (x, rest).
Proof.
  intros H. pose proof (read_num_pad k 0 x 0 rest H) as E.
  rewrite Nat.add_0_r in E. rewrite E. reflexivity.
Qed.

Lemma read_char_cons c rest : read_char c (String c rest) = Some rest.
Proof. simpl. now rewrite Ascii.eqb_refl. Qed.

Lemma days_in_month_le y m : days_in_month y m <= 31.
Proof.
  unfold days_in_month.
  repeat match goal with |- context [if ?b then _ else _] => destruct b end; lia.
Qed.

(** A datetime written by [isoformat] is read back by [fromisoformat]. *)
Lemma fromisoformat_isoformat t :
  is_datetime t = true -> fromisoformat (isoformat t) = Some t.
Proof.
  intros H. pose proof H as Hdt. unfold is_datetime in H.
  repeat (apply andb_prop in H as [H ?]).
  repeat match goal with
         | H : (_ <=? _) = true |- _ => apply N.leb_le in H
         end.
  pose proof (days_in_month_le (year t) (month t)).
  destruct t as [y mo d h mi s us]; cbn [year month day hour minute second microsecond] in *.
  unfold isoformat, fromisoformat;
    cbn [year month day hour minute second microsecond append].
  rewrite read_num_pad_exact by (simpl; lia). cbn [obind]. rewrite read_char_cons. cbn [obind].
  rewrite read_num_pad_exact by (simpl; lia). cbn [obind]. rewrite read_char_cons. cbn [obind].
  rewrite read_num_pad_exact by (simpl; lia). cbn [obind]. rewrite read_char_cons. cbn [obind].
  rewrite read_num_pad_exact by (simpl; lia). cbn [obind]. rewrite read_char_cons. cbn [obind].
  rewrite read_num_pad_exact by (simpl; lia). cbn [obind]. rewrite read_char_cons. cbn [obind].
  rewrite read_num_pad_exact by (simpl; lia). cbn [obind].
  destruct (us =? 0) eqn:E.
  - apply N.eqb_eq in E. subst us. cbn [obind]. now rewrite Hdt.
  - cbn [append obind]. rewrite read_char_cons. cbn [obind].
    rewrite <- (append_nil_r (pad 6 us)).
    rewrite read_num_pad_exact by (simpl; lia). cbn [obind]. now rewrite Hdt.
Qed.

End PyDatetimeFacts.

(* ------------------------------------------------------------------ *)
(** ** Validation *)
(* ------------------------------------------------------------------ *)

Module ModelsFacts.
Import PyStr PyDatetime Models.

Lemma raise_if_ok (c : bool) (e : exn) (A : Type) (k : result A) (a : A) :
  bind (raise_if c e) (fun _ => k) = Ok a -> c = false /\ k = Ok a.
Proof. destruct c; simpl; [discriminate | auto]. Qed.

Lemma FeedbackEntry_validate_ok e :
  FeedbackEntry_validate e = Ok tt ->
  is_empty (fe_joke_id e) = false
  /\ PyUuid.UUID_parses (fe_joke_id e) = true
  /\ is_empty (fe_category e) = false
  /\ ((1 <=? fe_rating e)%Z && (fe_rating e <=? 5)%Z) = true
  /\ is_datetime (fe_timestamp e) = true.
Proof.
  unfold FeedbackEntry_validate. intros H.
  apply raise_if_ok in H as [H1 H]. apply raise_if_ok in H as [H2 H].
  apply raise_if_ok in H as [H3 H]. apply raise_if_ok in H as [H4 H].
  apply raise_if_ok in H as [H5 _].
  apply negb_false_iff in H2, H4, H5. repeat split; assumption.
Qed.

Lemma JokeResponse_validate_ok r :
  JokeResponse_validate r = Ok tt ->
  is_empty (jr_joke_id r) = false
  /\ PyUuid.UUID_parses (jr_joke_id r) = true
  /\ is_empty (jr_category r) = false
  /\ is_datetime (jr_timestamp r) = true
  /\ (jr_success r && is_empty (strip (jr_joke_text r))) = false
  /\ (negb (jr_success r) && opt_is_empty (jr_error_message r)) = false.
Proof.
  unfold JokeResponse_validate. intros H.
  apply raise_if_ok in H as [H1 H]. apply raise_if_ok in H as [H2 H].
  apply raise_if_ok in H as [H3 H]. apply raise_if_ok in H as [H4 H].
  apply raise_if_ok in H as [H5 H]. apply raise_if_ok in H as [H6 _].
  apply negb_false_iff in H2, H4. repeat split; assumption.
Qed.

Lemma JokeResponse_validate_intro r :
  is_empty (jr_joke_id r) = false ->
  PyUuid.UUID_parses (jr_joke_id r) = true ->
  is_empty (jr_category r) = false ->
  is_datetime (jr_timestamp r) = true ->
  (jr_success r && is_empty (strip (jr_joke_text r))) = false ->
  (negb (jr_success r) && opt_is_empty (jr_error_message r)) = false ->
  JokeResponse_validate r = Ok tt.
Proof.
  intros H1 H2 H3 H4 H5 H6. unfold JokeResponse_validate.
  rewrite H1, H2, H3, H4, H5, H6. reflexivity.
Qed.

End ModelsFacts.

(* ------------------------------------------------------------------ *)
(** ** Stored entries *)
(* ------------------------------------------------------------------ *)

Module StorageFacts.
Import PyStr PyDatetime Models PyDict FeedbackStorage ProofDefs ModelsFacts Spec.

Lemma dict_roundtrip e :
  FeedbackEntry_validate e = Ok tt ->
  _dict_to_feedback_entry (_feedback_entry_to_dict e) = Ok e.
Proof.
  intros H. apply FeedbackEntry_validate_ok in H as (H1 & H2 & H3 & H4 & H5).
  destruct e as [id text cat rating ts comment];
    cbn [fe_joke_id fe_joke_text fe_category fe_rating fe_timestamp fe_user_comment] in *.
  unfold _dict_to_feedback_entry, _feedback_entry_to_dict.
  cbn [fe_joke_id fe_joke_text fe_category fe_rating fe_timestamp fe_user_comment].
  change (subscript (JDict ?d) "timestamp") with (Ok (JStr (isoformat ts))).
  cbn [bind]. rewrite (PyDatetimeFacts.fromisoformat_isoformat ts H5). cbn [bind].
  unfold FeedbackEntry_from_items.
  match goal with
  | |- bind (raise_if ?c _) _ = _ => replace c with false by (destruct comment; reflexivity)
  end.
  cbn [raise_if bind].
  change (required "joke_id" ?d) with (Ok (JStr id)).
  cbn [bind].
  change (required "joke_text" ?d) with (Ok (JStr text)).
  cbn [bind].
  change (required "category" ?d) with (Ok (JStr cat)).
  cbn [bind].
  change (required "rating" ?d) with (Ok (JInt rating)).
  cbn [bind].
  change (required "timestamp" ?d) with (Ok (JStr (isoformat ts))).
  cbn [bind].
  rewrite H1, H2, H3, H4. cbn [negb raise_if bind].
  destruct comment; reflexivity.
Qed.

Lemma read_entries_map es :
  Forall (fun e => FeedbackEntry_validate e = Ok tt) es ->
  read_entries (map _feedback_entry_to_dict es) = Ok es.
Proof.
  induction 1 as [|e es He Hes IH]; [reflexivity|].
  cbn [map read_entries]. rewrite (dict_roundtrip e He), IH. reflexivity.
Qed.

End StorageFacts.

(* ------------------------------------------------------------------ *)
(** ** Dictionaries *)
(* ------------------------------------------------------------------ *)

Module DictFacts.
Import PyDict.

Lemma get_set {A : Type} (c k : string) (v : A) d :
  get c (set k v d) = if String.eqb k c then Some v else get c d.
Proof.
  unfold get. induction d as [|[k0 old] rest IH]; simpl.
  - reflexivity.
  - destruct (String.eqb k0 k) eqn:E0; simpl.
    + apply String.eqb_eq in E0. subst k0.
      destruct (String.eqb k c); reflexivity.
    + rewrite IH. destruct (String.eqb k0 c) eqn:E1; [|reflexivity].
      destruct (String.eqb k c) eqn:E2; [|reflexivity].
      apply String.eqb_eq in E1, E2. subst. now rewrite String.eqb_refl in E0.
Qed.

Lemma get_none_not_in {A : Type} (k : string) (d : list (string * A)) :
  get k d = None -> ~ In k (map fst d).
Proof.
  unfold get. induction d as [|[k0 v] rest IH]; simpl; [tauto|].
  destruct (String.eqb k0 k) eqn:E; [discriminate|].
  apply String.eqb_neq in E. intros H [H1|H1]; [congruence | now apply IH].
Qed.

Lemma keys_set_present {A : Type} (k : string) (v old : A) d :
  get k d = Some old -> map fst (set k v d) = map fst d.
Proof.
  unfold get. induction d as [|[k0 x] rest IH]; simpl; [discriminate|].
  destruct (String.eqb k0 k) eqn:E; simpl; [reflexivity|].
  intros H. now rewrite IH.
Qed.

Lemma keys_set_absent {A : Type} (k : string) (v : A) d :
  get k d = None -> map fst (set k v d) = map fst d ++ [k].
Proof.
  unfold get. induction d as [|[k0 x] rest IH]; simpl; [reflexivity|].
  destruct (String.eqb k0 k) eqn:E; simpl; [discriminate|].
  intros H. now rewrite IH.
Qed.

Lemma NoDup_keys_set {A : Type} (k : string) (v : A) d :
  NoDup (map fst d) -> NoDup (map fst (set k v d)).
Proof.
  intros H. destruct (get k d) as [old|] eqn:E.
  - now rewrite (keys_set_present k v old d E).
  - rewrite (keys_set_absent k v d E).
    apply NoDup_app; [assumption | repeat constructor; simpl; tauto |].
    intros x Hx [<-|[]]. exact (get_none_not_in k d E Hx).
Qed.

Lemma get_map_values {A B : Type} (f : string -> A -> B) (c : string) d :
  get c (map (fun kv => (fst kv, f (fst kv) (snd kv))) d)
  = option_map (f c) (get c d).
Proof.
  unfold get. induction d as [|[k v] rest IH]; simpl; [reflexivity|].
  destruct (String.eqb k c) eqn:E; [|exact IH].
  apply String.eqb_eq in E. now subst.
Qed.

End DictFacts.

(* ------------------------------------------------------------------ *)
(** ** The statistics loop *)
(* ------------------------------------------------------------------ *)

Module TallyFacts.
Import PyStr PyDatetime Models PyDict FeedbackStorage ProofDefs Spec DictFacts.
Local Open Scope Z_scope.

Lemma rating_of_entry e : rating_of (_feedback_entry_to_dict e) = Ok (fe_rating e).
Proof. reflexivity. Qed.

Lemma category_of_entry e :
  category_of (_feedback_entry_to_dict e) = Ok (fe_category e).
Proof. reflexivity. Qed.

Lemma sum_ratings_entries es : forall total,
  sum_ratings (map _feedback_entry_to_dict es) total
  = Ok (total + sum_Z (map fe_rating es)).
Proof.
  induction es as [|e es IH]; intros total; cbn [map sum_ratings].
  - simpl. f_equal. lia.
  - rewrite rating_of_entry. cbn [bind]. rewrite IH. simpl. f_equal. lia.
Qed.

Lemma get_bump c k r d :
  get c (bump k r d)
  = if String.eqb k c then merged (get c d) true r else get c d.
Proof.
  unfold bump. destruct (String.eqb k c) eqn:E.
  - apply String.eqb_eq in E. subst c.
    destruct (get k d) eqn:G; rewrite get_set, String.eqb_refl; reflexivity.
  - destruct (get k d); rewrite get_set, E; reflexivity.
Qed.

Lemma NoDup_keys_bump k r d :
  NoDup (map fst d) -> NoDup (map fst (bump k r d)).
Proof. unfold bump. destruct (get k d); apply NoDup_keys_set. Qed.

Lemma merged_merged o p1 p2 a b :
  merged (merged o p1 a) p2 b
  = match o with
    | Some v => Some (v + (a + b))
    | None => if p1 then Some (a + b) else if p2 then Some b else None
    end.
Proof.
  destruct o; simpl; [f_equal; lia|]. destruct p1; simpl; reflexivity.
Qed.

(** The loop of [_update_statistics] over the entries the store wrote:
    each category ends with the number and the sum of its ratings. *)
Lemma tally_entries es : forall cc cr,
  exists cc' cr',
    tally (map _feedback_entry_to_dict es) cc cr = Ok (cc', cr')
    /\ (forall c, get c cc'
                  = merged (get c cc) (mentions c es)
                           (Z.of_nat (List.length (ratings_in c es))))
    /\ (forall c, get c cr'
                  = merged (get c cr) (mentions c es) (sum_Z (ratings_in c es)))
    /\ (NoDup (map fst cc) -> NoDup (map fst cc')).
Proof.
  induction es as [|e es IH]; intros cc cr.
  - exists cc, cr. split; [reflexivity|]. split; [|split; [|auto]].
    + intros c. cbn. destruct (get c cc); simpl; now rewrite ?Z.add_0_r.
    + intros c. cbn. destruct (get c cr); simpl; now rewrite ?Z.add_0_r.
  - cbn [map tally]. rewrite category_of_entry, rating_of_entry. cbn [bind].
    destruct (IH (bump (fe_category e) 1 cc) (bump (fe_category e) (fe_rating e) cr))
      as (cc' & cr' & Ht & Hc & Hr & Hn).
    exists cc', cr'. split; [exact Ht|]. split; [|split].
    + intros c. rewrite Hc, get_bump. unfold ratings_in, mentions.
      cbn [filter existsb]. destruct (String.eqb (fe_category e) c) eqn:E.
      * rewrite merged_merged. cbn [map List.length orb].
        rewrite Nat2Z.inj_succ.
        destruct (get c cc); cbn [merged]; f_equal; lia.
      * reflexivity.
    + intros c. rewrite Hr, get_bump. unfold ratings_in, mentions.
      cbn [filter existsb]. destruct (String.eqb (fe_category e) c) eqn:E.
      * rewrite merged_merged. cbn [map sum_Z fold_right orb].
        destruct (get c cr); cbn [merged]; f_equal; lia.
      * reflexivity.
    + intros H. apply Hn, NoDup_keys_bump, H.
Qed.

Lemma mentions_ratings c es :
  mentions c es = negb (match ratings_in c es with [] => true | _ => false end).
Proof.
  unfold mentions, ratings_in. induction es as [|e es IH]; simpl; [reflexivity|].
  destruct (String.eqb (fe_category e) c); simpl; [reflexivity | exact IH].
Qed.

Lemma category_entry_average rs :
  rs <> [] ->
  category_entry (Z.of_nat (List.length rs)) (sum_Z rs)
  = JDict [ ("count", JInt (Z.of_nat (List.length rs)));
            ("avg_rating", JFloat (average_rating rs)) ].
Proof.
  intros H. unfold category_entry, average_rating.
  destruct rs as [|r rs]; [congruence|].
  replace (0 <? Z.of_nat (List.length (r :: rs))) with true
    by (symmetry; apply Z.ltb_lt; simpl List.length; lia).
  reflexivity.
Qed.

(** The statistics [_update_statistics] stores agree with the entries. *)
Lemma update_statistics_entries es old_stats :
  es <> [] ->
  exists stats,
    _update_statistics (store_doc es old_stats) = Ok (store_doc es stats)
    /\ stats_agree stats es.
Proof.
  intros Hne. unfold _update_statistics, store_doc.
  change (subscript (JDict ?d) "feedback_entries")
    with (Ok (JList (map _feedback_entry_to_dict es))).
  cbn [bind]. destruct es as [|e0 es0] eqn:Ees; [congruence|].
  rewrite <- Ees in *. replace (falsy (JList (map _feedback_entry_to_dict es))) with false
    by (subst es; reflexivity).
  rewrite sum_ratings_entries. cbn [bind].
  destruct (tally_entries es [] []) as (cc & cr & Ht & Hc & Hr & Hn).
  rewrite Ht. cbn [bind fst snd].
  eexists. split; [reflexivity|].
  unfold stats_agree. eexists. split; [|split].
  - rewrite length_map. f_equal. f_equal. f_equal. f_equal.
    unfold average_rating. rewrite Z.add_0_l.
    destruct (map fe_rating es) eqn:Em; [subst es; discriminate|].
    rewrite <- Em, length_map.
    replace (0 <? Z.of_nat (List.length es)) with true
      by (symmetry; apply Z.ltb_lt; subst es; simpl List.length; lia).
    reflexivity.
  - unfold build_category_stats. rewrite map_map.
    rewrite (map_ext _ fst) by reflexivity. apply Hn. constructor.
  - intros c. unfold build_category_stats.
    rewrite (get_map_values
               (fun category count =>
                  category_entry count
                    match get category cr with Some t => t | None => 0 end)).
    rewrite Hc, Hr. cbn [get ErrorHandler.lookup merged].
    unfold category_breakdown. rewrite mentions_ratings.
    destruct (ratings_in c es) as [|r rs] eqn:Er; [reflexivity|].
    cbn [negb option_map]. rewrite category_entry_average by discriminate.
    reflexivity.
Qed.

End TallyFacts.

(* ------------------------------------------------------------------ *)
(** ** The feedback store *)
(* ------------------------------------------------------------------ *)

Module StoreFacts.
Import PyStr PyDatetime Models PyDict FeedbackStorage.
Import ProofDefs Spec StorageFacts TallyFacts.

Lemma stats_agree_empty : stats_agree empty_stats [].
Proof.
  exists []. split; [reflexivity|]. split; [constructor|].
  intros c. reflexivity.
Qed.

Lemma holds_empty_data fs :
  _load_feedback_data fs = Ok empty_data -> holds fs [].
Proof.
  intros H. exists empty_stats. split; [exact H|].
  split; [exact stats_agree_empty | constructor].
Qed.

Lemma holds_get_all fs es : holds fs es -> get_all_feedback fs = Ok es.
Proof.
  intros (stats & Hl & _ & Hv). unfold get_all_feedback. rewrite Hl.
  cbn [bind]. unfold store_doc.
  change (subscript (JDict ?d) "feedback_entries")
    with (Ok (JList (map _feedback_entry_to_dict es))).
  cbn [bind]. now apply read_entries_map.
Qed.

Lemma holds_get_stats fs es :
  holds fs es ->
  exists stats, get_feedback_stats fs = Ok stats /\ stats_agree stats es.
Proof.
  intros (stats & Hl & Ha & _). exists stats. split; [|exact Ha].
  unfold get_feedback_stats. rewrite Hl. reflexivity.
Qed.

Lemma append_entry_store_doc es stats e :
  append_entry (store_doc es stats) (_feedback_entry_to_dict e)
  = Ok (store_doc (es ++ [e]) stats).
Proof.
  unfold append_entry, store_doc.
  change (subscript (JDict ?d) "feedback_entries")
    with (Ok (JList (map _feedback_entry_to_dict es))).
  cbn [bind]. rewrite map_app. reflexivity.
Qed.

(** What [save_feedback] of a validated entry does to a store that
    holds [es], by what the write meets. *)
Lemma save_feedback_holds fs es e w :
  holds fs es -> FeedbackEntry_validate e = Ok tt ->
  match w with
  | Written =>
      holds (fst (save_feedback fs e w)) (es ++ [e])
      /\ snd (save_feedback fs e w) = Ok tt
  | OpenFails _ => fst (save_feedback fs e w) = fs
  | WriteFails _ flushed => fst (save_feedback fs e w) = NotJson flushed
  end.
Proof.
  intros (stats & Hl & Ha & Hv) He. unfold save_feedback. rewrite Hl.
  cbn [bind]. rewrite append_entry_store_doc. cbn [bind].
  destruct (update_statistics_entries (es ++ [e]) stats) as (stats' & Hu & Ha').
  { destruct es; discriminate. }
  rewrite Hu. destruct w; cbn [_save_feedback_data fst snd]; auto.
  split; [|reflexivity]. exists stats'. repeat split; auto.
  apply Forall_app. split; [exact Hv | constructor; [exact He | constructor]].
Qed.

Lemma persisted_holds fs : persisted fs -> exists es, holds fs es.
Proof.
  induction 1 as [|fs e w Hp [es IH] He|fs w Hp [es IH]].
  - exists []. now apply holds_empty_data.
  - pose proof (save_feedback_holds fs es e w IH He) as H.
    destruct w.
    + exists (es ++ [e]). apply H.
    + exists es. now rewrite H.
    + exists []. rewrite H. now apply holds_empty_data.
  - unfold clear_all_feedback. destruct w; cbn [_save_feedback_data fst].
    + exists []. now apply holds_empty_data.
    + exists es. exact IH.
    + exists []. now apply holds_empty_data.
Qed.

Lemma save_all_holds es : forall fs es0,
  holds fs es0 -> valid_entries es -> holds (save_all fs es) (es0 ++ es).
Proof.
  induction es as [|e es IH]; intros fs es0 H Hv; cbn [save_all].
  - now rewrite app_nil_r.
  - inversion Hv as [|? ? He Hes]; subst.
    destruct (save_feedback_holds fs es0 e Written H He) as [H' _].
    specialize (IH _ _ H' Hes). now rewrite <- app_assoc in IH.
Qed.

(** What a successful [save_feedback] of a validated entry leaves of a
    file of validated records, whatever statistics the file held. *)
Lemma save_feedback_repairs entries stale e :
  valid_entries entries -> FeedbackEntry_validate e = Ok tt ->
  holds (fst (save_feedback (Document (store_doc entries stale)) e Written))
        (entries ++ [e])
  /\ snd (save_feedback (Document (store_doc entries stale)) e Written) = Ok tt.
Proof.
  intros Hv He. unfold save_feedback. cbn [_load_feedback_data bind].
  rewrite append_entry_store_doc. cbn [bind].
  destruct (update_statistics_entries (entries ++ [e]) stale) as (stats & Hu & Ha).
  { destruct entries; discriminate. }
  rewrite Hu. cbn [_save_feedback_data fst snd]. split; [|reflexivity].
  exists stats. repeat split; auto.
  apply Forall_app. split; [exact Hv | constructor; [exact He | constructor]].
Qed.

(** C7. The statistics that [get_feedback_stats] returns are the
    aggregate of the entries that [get_all_feedback] returns (the total
    count, the overall average, and for each category its count and
    average) in every state of the storage file that the store produced
    from no file, by [save_feedback] of validated entries and
    [clear_all_feedback] with any failure of a write; and in the state a
    successful [save_feedback] leaves of any file of validated records,
    whatever statistics that file held before. *)
Theorem stored_stats_agree_with_entries :
  (forall fs,
     persisted fs ->
     exists entries stats,
       get_all_feedback fs = Ok entries
       /\ get_feedback_stats fs = Ok stats
       /\ stats_agree stats entries)
  /\ (forall entries stale e,
        valid_entries entries -> FeedbackEntry_validate e = Ok tt ->
        let fs := fst (save_feedback (Document (store_doc entries stale))
                                     e Written) in
        get_all_feedback fs = Ok (entries ++ [e])
        /\ exists stats,
             get_feedback_stats fs = Ok stats
             /\ stats_agree stats (entries ++ [e])).
Proof.
  split.
  - intros fs H. destruct (persisted_holds fs H) as [es Hh].
    destruct (holds_get_stats fs es Hh) as (stats & Hs & Ha).
    exists es, stats. auto using holds_get_all.
  - intros entries stale e Hv He fs.
    destruct (save_feedback_repairs entries stale e Hv He) as [Hh _].
    fold fs in Hh. split; [now apply holds_get_all|].
    now apply holds_get_stats.
Qed.

(** C9. Entries that passed validation, saved one after the other, are
    read back by [get_all_feedback] as the same records in the order of
    insertion: alone when the store began without a file, after the
    records it held otherwise. *)
Theorem feedback_round_trip (entries : list FeedbackEntry) :
  valid_entries entries ->
  get_all_feedback (save_all Absent entries) = Ok entries
  /\ forall fs before,
       persisted fs -> get_all_feedback fs = Ok before ->
       get_all_feedback (save_all fs entries) = Ok (before ++ entries).
Proof.
  intros Hv. split.
  - apply holds_get_all.
    apply (save_all_holds entries Absent []); [|exact Hv].
    now apply holds_empty_data.
  - intros fs before Hp Hb. destruct (persisted_holds fs Hp) as [es Hh].
    pose proof (holds_get_all fs es Hh) as E. rewrite E in Hb.
    injection Hb as <-. apply holds_get_all. now apply save_all_holds.
Qed.

(** C4. When [save_feedback] fails before the storage file is opened
    for writing, or because opening it fails, the contents of the file are
    what they were before the call. *)
Theorem failed_save_leaves_file (fs : file_state) (feedback : FeedbackEntry)
    (w : write_outcome) (e : exn) :
  (forall err flushed, w <> WriteFails err flushed) ->
  snd (save_feedback fs feedback w) = Raise e ->
  fst (save_feedback fs feedback w) = fs.
Proof.
  intros Hw. unfold save_feedback.
  destruct (bind (_load_feedback_data fs) _) as [data|e']; [|reflexivity].
  destruct w as [|err|err flushed]; cbn [_save_feedback_data fst snd].
  - discriminate.
  - reflexivity.
  - now destruct (Hw err flushed).
Qed.

(** A failure of [open] or of [json.load]: when its class is one the
    [except] clause names, the store reads as it does a missing file;
    when it is not, the exception reaches the caller. *)
Lemma load_failure_outcome (fs : file_state) (e : exn) :
  fs = OpenRaises e \/ (exists content, fs = LoadRaises content e) ->
  if caught_on_load e
  then _load_feedback_data fs = _load_feedback_data Absent
       /\ get_all_feedback fs = Ok []
       /\ get_feedback_stats fs = Ok empty_stats
  else _load_feedback_data fs = Raise e
       /\ get_all_feedback fs = Raise e
       /\ get_feedback_stats fs = Raise e.
Proof.
  intros H.
  assert (Hl : _load_feedback_data fs
               = if caught_on_load e then Ok empty_data else Raise e).
  { destruct H as [->|[content ->]]; reflexivity. }
  unfold get_all_feedback, get_feedback_stats. rewrite Hl.
  destruct (caught_on_load e); repeat split; reflexivity.
Qed.

End StoreFacts.

(* ------------------------------------------------------------------ *)
(** ** Responses and categories *)
(* ------------------------------------------------------------------ *)

Module ServiceFacts.
Import PyStr PyDatetime Models Config Prompts FeedbackStorage JokeService.
Import ModelsFacts Spec.

Lemma is_empty_false s : is_empty s = false <-> s <> EmptyString.
Proof. destruct s; simpl; split; congruence. Qed.

Lemma strip_empty : strip EmptyString = EmptyString.
Proof. reflexivity. Qed.

Lemma nonblank_nonempty s : is_empty (strip s) = false -> s <> EmptyString.
Proof. intros H ->. discriminate. Qed.

Lemma create_error_ok uuid4 now msg category :
  PyUuid.UUID_parses uuid4 = true -> is_datetime now = true ->
  msg <> EmptyString -> is_empty category = false ->
  create_error uuid4 now msg category
  = Ok (mk_JokeResponse uuid4 "" category false now (Some msg)).
Proof.
  intros Hu Hd Hm Hc. unfold create_error, new_JokeResponse.
  rewrite JokeResponse_validate_intro; try assumption; try reflexivity.
  - cbn. destruct uuid4; [discriminate | reflexivity].
  - cbn. now apply is_empty_false.
Qed.


Lemma new_JokeResponse_inv r r' :
  new_JokeResponse r = Ok r' -> r' = r /\ JokeResponse_validate r = Ok tt.
Proof.
  unfold new_JokeResponse. destruct (JokeResponse_validate r) as [[]|]; simpl;
    [intros [= <-]; auto | discriminate].
Qed.

Lemma gated_of_validate r : JokeResponse_validate r = Ok tt -> gated_invariant r.
Proof.
  intros H. apply JokeResponse_validate_ok in H as (_ & _ & _ & _ & H5 & H6).
  split; intros Hs; rewrite Hs in *; simpl in *; [exact H5|].
  destruct (jr_error_message r) as [m|]; [|discriminate].
  exists m. split; [reflexivity | now apply is_empty_false].
Qed.





Lemma new_BedrockConfig_default model_id :
  match new_BedrockConfig (mk_BedrockConfig model_id MAX_TOKENS TEMPERATURE TOP_P) with
  | Ok c => c = mk_BedrockConfig model_id MAX_TOKENS TEMPERATURE TOP_P
  | Raise e => exists m, e = ValueError m
  end.
Proof.
  unfold new_BedrockConfig, BedrockConfig_validate.
  destruct model_id; cbn [bc_model_id is_empty raise_if bind].
  - eexists; reflexivity.
  - reflexivity.
Qed.

End ServiceFacts.

(* ------------------------------------------------------------------ *)
(** ** Substrings *)
(* ------------------------------------------------------------------ *)

Module ContainsFacts.
Import PyStr.

Lemma prefix_app p s : String.prefix p (p ++ s) = true.
Proof.
  induction p as [|c p IH]; simpl.
  - now destruct s.
  - destruct (ascii_dec c c); [exact IH | congruence].
Qed.

Lemma contains_prefix s p : String.prefix p s = true -> contains s p = true.
Proof. intros H. destruct s; simpl in *; now rewrite H. Qed.

Lemma contains_app_r a s p : contains s p = true -> contains (a ++ s) p = true.
Proof.
  intros H. induction a as [|c a IH]; [exact H|].
  cbn [append contains]. rewrite IH. apply orb_true_r.
Qed.

Lemma contains_middle a p b : contains (a ++ p ++ b) p = true.
Proof. apply contains_app_r, contains_prefix, prefix_app. Qed.

End ContainsFacts.

(* ------------------------------------------------------------------ *)
(** ** The joke service *)
(* ------------------------------------------------------------------ *)

Module ServiceTheorems.
Import PyStr PyDatetime Models Config Prompts FeedbackStorage JokeService.
Import ModelsFacts Spec ServiceFacts ContainsFacts.

(** C1. A [JokeResponse] that passes validation has, when [success]
    is true, a joke text that is not blank and, when [success] is false,
    an error message that is present and not empty. Validation does not
    ask for more: the exclusive form (no error message on a success, no
    text on a failure) holds of what [create_success] and [create_error]
    build. *)
Theorem validated_response_invariant (r : JokeResponse) :
  JokeResponse_validate r = Ok tt ->
  gated_invariant r
  /\ (forall uuid4 now joke_text category,
        create_success uuid4 now joke_text category = Ok r ->
        exclusive_invariant r)
  /\ (forall uuid4 now error_message category,
        create_error uuid4 now error_message category = Ok r ->
        exclusive_invariant r).
Proof.
  intros H. pose proof (gated_of_validate r H) as [Hs Hf].
  split; [split; assumption|]. split.
  - intros uuid4 now joke_text category Hc.
    apply new_JokeResponse_inv in Hc as [-> _].
    cbn [jr_success jr_joke_text jr_error_message] in *.
    split; [intros _ | discriminate].
    split; [|reflexivity]. apply nonblank_nonempty. now apply Hs.
  - intros uuid4 now error_message category Hc.
    apply new_JokeResponse_inv in Hc as [-> _].
    cbn [jr_success jr_joke_text jr_error_message] in *.
    split; [discriminate | intros _]. split; [discriminate | reflexivity].
Qed.

Section WithGateway.
Context {C : Type} (G : Gateway C).


Lemma invalid_category_message c :
  ErrorHandler.message
    (ErrorHandler.format_error_message "invalid_category"
       [("category", c);
        ("available_categories", String.concat ", " get_available_categories)])
  = ("Invalid joke category '" ++ c ++ "'.")%string.
Proof. reflexivity. Qed.

(** C6. For a category name outside the valid set, [generate_joke]
    returns a response with [success] false and calls the client not at
    all. Its error message contains the name; for a name that is not
    empty it is the message of the [invalid_category] entry, which names
    the category only: the list of the valid categories is in the guidance
    of that entry, which the response does not carry. *)
Theorem invalid_category_response (rt : Runtime) (self : JokeService C)
    (category : string) (aws_profile model_id : option string) :
  well_formed_draws rt ->
  validate_category category = false ->
  let g := generate_joke rt self (Some category) aws_profile model_id in
  g_invoked g = [] /\ g_service g = self
  /\ exists response m,
       g_outcome g = Ok response
       /\ jr_success response = false
       /\ jr_error_message response = Some m
       /\ contains m category = true
       /\ (category <> EmptyString ->
           m = ("Invalid joke category '" ++ category ++ "'.")%string
           /\ jr_category response = category)
       /\ In ("Available categories: "
              ++ String.concat ", " AVAILABLE_CATEGORIES)%string
             (ErrorHandler.guidance
                (ErrorHandler.format_error_message "invalid_category"
                   [("category", category);
                    ("available_categories",
                     String.concat ", " get_available_categories)])).
Proof.
  intros Hrt Hc g. subst g. unfold generate_joke, generate_joke_try.
  rewrite Hc. cbn [negb]. rewrite invalid_category_message.
  destruct (Hrt 0%nat) as [Hu0 Hd0]. destruct (Hrt 1%nat) as [Hu1 Hd1].
  destruct category as [|a category'] eqn:Ecat.
  - (* the empty name: the response cannot be built, the handler answers *)
    replace (create_error (rt_uuid4 rt 0) (rt_now rt 0)
               ("Invalid joke category '" ++ "" ++ "'.") "")
      with (@Raise JokeResponse (ValueError "category must be a non-empty string")).
    2:{ unfold create_error, new_JokeResponse, JokeResponse_validate.
        cbn [jr_joke_id jr_category]. rewrite Hu0.
        destruct (rt_uuid4 rt 0); [discriminate | reflexivity]. }
    cbn [exn_str category_used].
    rewrite create_error_ok by (assumption || discriminate || reflexivity).
    cbn [g_invoked g_service g_outcome]. repeat split.
    eexists _, _. repeat split; try reflexivity.
    + congruence.
    + congruence.
    + cbn. auto.
  - rewrite create_error_ok by (assumption || discriminate || reflexivity).
    cbn [g_invoked g_service g_outcome]. repeat split.
    eexists _, _. repeat split; try reflexivity.
    + cbn [jr_error_message]. apply contains_middle.
    + cbn. auto.
Qed.

(** [generate_joke] calls the client once at most. *)
Lemma generate_joke_invokes_once_at_most (rt : Runtime) (self : JokeService C)
    (category aws_profile model_id : option string) :
  (List.length (g_invoked (generate_joke rt self category aws_profile model_id))
   <= 1)%nat.
Proof.
  assert (H : forall c,
    (List.length (g_invoked
       (let '(self, invoked, made, outcome) :=
          generate_for_category rt self c aws_profile model_id in
        match outcome with
        | Ok response => @mk_generated C self invoked (Ok response)
        | Raise (BedrockClientError msg) =>
            mk_generated self invoked
              (create_error (rt_uuid4 rt made) (rt_now rt made) msg
                            (or_unknown (category_used rt category)))
        | Raise e =>
            mk_generated self invoked
              (create_error (rt_uuid4 rt made) (rt_now rt made)
                            ("Unexpected error: " ++ exn_str e)%string
                            (or_unknown (category_used rt category)))
        end)) <= 1)%nat).
  { intros c. unfold generate_for_category.
    destruct (get_joke_prompt c) as [prompt|e]; [|destruct e; simpl; lia].
    destruct (new_BedrockConfig _) as [config|e]; [|destruct e; simpl; lia].
    destruct (gw_invoke_model _ prompt config) as [client [text|e]];
      [|destruct e; simpl; lia].
    destruct (is_empty _);
      match goal with
      | |- context [create_error ?a ?b ?c ?d] =>
          destruct (create_error a b c d) as [r|e]; [|destruct e]; simpl; lia
      | |- context [create_success ?a ?b ?c ?d] =>
          destruct (create_success a b c d) as [r|e]; [|destruct e]; simpl; lia
      end. }
  unfold generate_joke, generate_joke_try. destruct category as [c|]; [|apply H].
  destruct (validate_category c); cbn [negb]; [apply H|].
  match goal with
  | |- context [create_error ?a ?b ?c ?d] =>
      destruct (create_error a b c d) as [r|e]; [|destruct e]; simpl; lia
  end.
Qed.

(** C10. For a response with [success] true and a rating outside
    1..5, [collect_user_feedback] returns false, raises nothing and leaves
    the service, its storage file included, as it was; when the response
    passed validation, what [FeedbackEntry.create] raises is the
    [ValueError] of the range check. *)
Theorem out_of_range_rating_rejected (rt : Runtime) (w : write_outcome)
    (self : JokeService C) (joke_response : JokeResponse) (rating : Z)
    (user_comment : option string) :
  jr_success joke_response = true ->
  (rating < 1 \/ 5 < rating)%Z ->
  collect_user_feedback rt w self joke_response rating user_comment
  = (self, false)
  /\ (JokeResponse_validate joke_response = Ok tt ->
      FeedbackEntry_create (rt_now rt 0) (jr_joke_id joke_response)
        (jr_joke_text joke_response) (jr_category joke_response)
        rating user_comment
      = Raise (ValueError "rating must be between 1 and 5 (inclusive)")).
Proof.
  intros Hs Hr.
  assert (Hrange : ((1 <=? rating)%Z && (rating <=? 5)%Z) = false).
  { apply andb_false_iff. destruct Hr; [left; apply Z.leb_gt | right; apply Z.leb_gt]; lia. }
  split.
  - unfold collect_user_feedback. rewrite Hs. cbn [negb].
    unfold FeedbackEntry_create, new_FeedbackEntry.
    match goal with
    | |- context [FeedbackEntry_validate ?e] =>
        destruct (FeedbackEntry_validate e) as [[]|ex] eqn:E
    end; [|reflexivity].
    apply FeedbackEntry_validate_ok in E as (_ & _ & _ & E & _).
    cbn [fe_rating] in E. congruence.
  - intros Hv. apply JokeResponse_validate_ok in Hv as (H1 & H2 & H3 & _).
    unfold FeedbackEntry_create, new_FeedbackEntry, FeedbackEntry_validate.
    cbn [fe_joke_id fe_category fe_rating fe_timestamp].
    rewrite H1, H2, H3, Hrange. reflexivity.
Qed.

End WithGateway.

End ServiceTheorems.

(* ------------------------------------------------------------------ *)
(** ** The Bedrock client *)
(* ------------------------------------------------------------------ *)

Module BedrockFacts.
Import PyStr Models Config PyDict Bedrock Spec.





Lemma test_credentials_requests sdk self :
  requests (fst (_test_credentials sdk self)) = requests self ++ [probe_request]
  /\ _client (fst (_test_credentials sdk self)) = _client self.
Proof.
  unfold _test_credentials.
  destruct (raised_by_probe sdk self) as [e|]; [destruct e|];
    repeat match goal with
           | |- context [if ?b then _ else _] => destruct b
           end; split; reflexivity.
Qed.

(** [_get_client] on a client that is set sends nothing; on one that is
    not, nothing when the SDK client cannot be created, the probe else. *)
Lemma get_client_requests sdk self :
  match _client self with
  | Some _ => _get_client sdk self = (self, Ok tt)
  | None =>
      (requests (fst (_get_client sdk self)) = requests self
       /\ _client (fst (_get_client sdk self)) = None
       /\ is_ok (snd (_get_client sdk self)) = false)
      \/ (requests (fst (_get_client sdk self)) = requests self ++ [probe_request]
          /\ _client (fst (_get_client sdk self)) = Some (client_config self))
  end.
Proof.
  unfold _get_client. destruct (_client self) eqn:Ec; [reflexivity|].
  destruct (sdk_new_client sdk (profile self) (client_config self)) as [e|].
  - left. destruct e; cbn; repeat match goal with
                                  | |- context [if ?b then _ else _] => destruct b
                                  end; cbn; auto.
  - right.
    pose proof (test_credentials_requests sdk (with_client self (client_config self)))
      as [Hr Hc].
    destruct (_test_credentials sdk (with_client self (client_config self)))
      as [self1 [[]|e]]; cbn [fst] in *.
    + auto.
    + destruct e; repeat match goal with
                         | |- context [if ?b then _ else _] => destruct b
                         end; cbn [fst]; auto.
Qed.

Lemma invoke_path_requests sdk self prompt config :
  requests (fst (if uses_converse (bc_model_id config)
                 then _invoke_with_converse_api sdk self prompt config
                 else _invoke_with_legacy_api sdk self prompt config))
  = requests self ++ [generation_request prompt config]
  /\ _client (fst (if uses_converse (bc_model_id config)
                   then _invoke_with_converse_api sdk self prompt config
                   else _invoke_with_legacy_api sdk self prompt config))
     = _client self.
Proof.
  unfold generation_request. destruct (uses_converse (bc_model_id config));
    split; reflexivity.
Qed.

Lemma invoke_model_fst sdk self prompt config :
  fst (invoke_model sdk self prompt config)
  = fst match _get_client sdk self with
        | (self, Raise e) => (self, @Raise string e)
        | (self, Ok tt) =>
            if uses_converse (bc_model_id config)
            then _invoke_with_converse_api sdk self prompt config
            else _invoke_with_legacy_api sdk self prompt config
        end.
Proof.
  unfold invoke_model.
  match goal with
  | |- fst match ?b with (_, _) => _ end = _ => destruct b as [s [t|e]]
  end; reflexivity.
Qed.

End BedrockFacts.

(* ------------------------------------------------------------------ *)
(** ** The requests of one call *)
(* ------------------------------------------------------------------ *)

Module GatewayTheorems.
Import PyStr Models Config PyDict Bedrock JokeService Spec BedrockFacts.

(** C5. One call of [invoke_model] sends the generation request once
    at most, and never again after a failure: once exactly on a client
    that is set; on one that is not, the credential probe goes first, so
    that nothing, the probe alone, or the probe and the request reach the
    SDK client. [generate_joke] calls [invoke_model] once at most. The SDK
    client is created with [retries] of [max_attempts] [MAX_RETRIES] in mode
    [adaptive]: attempts within one request are the SDK's. *)
Theorem one_generation_request_per_call :
  (forall sdk self prompt config,
     let self' := fst (invoke_model sdk self prompt config) in
     (forall c, _client self = Some c ->
        requests self' = requests self ++ [generation_request prompt config]
        /\ _client self' = Some c)
     /\ (_client self = None ->
         requests self' = requests self
         \/ requests self' = requests self ++ [probe_request]
         \/ requests self'
            = requests self ++ [probe_request; generation_request prompt config])
     /\ (forall c, _client self' = Some c ->
         _client self = Some c
         \/ (retries_max_attempts c = MAX_RETRIES /\ retries_mode c = "adaptive")))
  /\ (forall (C : Type) (G : Gateway C) rt (self : JokeService C)
             category aws_profile model_id,
        (List.length (g_invoked (generate_joke rt self category aws_profile model_id))
         <= 1)%nat)
  /\ MAX_RETRIES = 3%Z.
Proof.
  split; [|split; [|reflexivity]].
  - intros sdk self prompt config self'. subst self'.
    rewrite invoke_model_fst.
    pose proof (get_client_requests sdk self) as H.
    destruct (_client self) as [c0|] eqn:Ec.
    + rewrite H.
      destruct (invoke_path_requests sdk self prompt config) as [Hr Hc].
      split; [|split].
      * intros c [= <-]. rewrite Hc, Ec. auto.
      * discriminate.
      * intros c Hc'. left. now rewrite Hc, Ec in Hc'.
    + split; [discriminate|].
      destruct (_get_client sdk self) as [self1 [[]|e]]; cbn [fst snd] in *.
      * destruct H as [(_ & _ & [=])|[Hr Hc]].
        destruct (invoke_path_requests sdk self1 prompt config) as [Hr' Hc'].
        split.
        -- right; right. rewrite Hr', Hr, <- app_assoc. reflexivity.
        -- intros c. rewrite Hc', Hc. intros [= <-]. right. split; reflexivity.
      * destruct H as [(Hr & Hc & _)|[Hr Hc]].
        -- split; [now left|]. intros c. rewrite Hc. discriminate.
        -- split; [right; now left|]. intros c. rewrite Hc. intros [= <-].
           right. split; reflexivity.
  - intros C G rt self category aws_profile model_id.
    apply ServiceTheorems.generate_joke_invokes_once_at_most.
Qed.

End GatewayTheorems.

(* ------------------------------------------------------------------ *)
(** ** Instances: witnesses, counterexamples, examples *)
(* ------------------------------------------------------------------ *)

Module Checks.
Import PyStr PyDatetime Models Config Prompts FeedbackStorage Bedrock JokeService.
Import Spec Samples ProofDefs BedrockFacts.

Example clean_spec_example :
  Cleaner._clean_joke_text "Here's a joke: Why did X? Hope you enjoyed it!"
  = "Why did X?".
Proof. vm_compute. reflexivity. Qed.

Example clean_blank : Cleaner._clean_joke_text "   " = "".
Proof. vm_compute. reflexivity. Qed.

(** C3, counterexample: of two lead-ins the first call removes one and
    the second call the other. *)
Lemma clean_removes_one_lead_in_per_call :
  Cleaner._clean_joke_text "Joke: Joke: Why?" = "Joke: Why?"
  /\ Cleaner._clean_joke_text (Cleaner._clean_joke_text "Joke: Joke: Why?")
     = "Why?".
Proof. split; vm_compute; reflexivity. Qed.

Lemma clean_idempotent_witness :
  Cleaner.has_lead_in (Cleaner._clean_joke_text "  Here's one:  Why?  ") = false
  /\ Cleaner.has_sign_off (Cleaner._clean_joke_text "  Here's one:  Why?  ") = false
  /\ Cleaner._clean_joke_text (Cleaner._clean_joke_text "  Here's one:  Why?  ")
     = Cleaner._clean_joke_text "  Here's one:  Why?  ".
Proof.
  split; [vm_compute; reflexivity|]. split; [vm_compute; reflexivity|].
  apply (CleanerFacts.clean_idempotent_without_boilerplate "  Here's one:  Why?  ");
    vm_compute; reflexivity.
Defined.

(** C1, counterexample: validation accepts a successful response with
    an error message and a failed one with a joke text. *)
Lemma validation_accepts_both_fields :
  JokeResponse_validate success_with_error = Ok tt
  /\ jr_success success_with_error = true
  /\ jr_error_message success_with_error = Some "API Error"
  /\ JokeResponse_validate failure_with_text = Ok tt
  /\ jr_success failure_with_text = false
  /\ jr_joke_text failure_with_text = sample_joke
  /\ ~ exclusive_invariant success_with_error
  /\ ~ exclusive_invariant failure_with_text.
Proof.
  repeat split; try (vm_compute; reflexivity).
  - intros [H _]. destruct (H eq_refl) as [_ E]. discriminate E.
  - intros [_ H]. destruct (H eq_refl) as [_ E]. discriminate E.
Qed.

Lemma validated_response_invariant_witness :
  JokeResponse_validate good_response = Ok tt
  /\ gated_invariant good_response
  /\ (forall uuid4 now joke_text category,
        create_success uuid4 now joke_text category = Ok good_response ->
        exclusive_invariant good_response)
  /\ (forall uuid4 now error_message category,
        create_error uuid4 now error_message category = Ok good_response ->
        exclusive_invariant good_response).
Proof.
  split; [vm_compute; reflexivity|].
  apply (ServiceTheorems.validated_response_invariant good_response).
  vm_compute; reflexivity.
Defined.

(** C2. A client given to the service raises [BedrockClientError]
    with an empty message. The handler of [generate_joke] for that class
    passes [str(e)] to [JokeResponse.create_error], the constructor rejects
    the empty error message, and [generate_joke] raises [ValueError] to its
    caller. The handler beside it, for any other exception, puts
    [Unexpected error: ] before the text and returns a response with
    [success] false. *)
Lemma empty_error_message_escapes :
  g_outcome (@generate_joke MockClient (MockGateway (Raise (BedrockClientError "")))
               sample_runtime mock_service (Some "general") None None)
  = Raise (ValueError "Failed responses must have an error_message")
  /\ g_outcome (@generate_joke MockClient (MockGateway (Raise (OtherException "")))
                  sample_runtime mock_service (Some "general") None None)
     = Ok (mk_JokeResponse sample_uuid "" "general" false sample_time
                           (Some "Unexpected error: ")).
Proof. split; vm_compute; reflexivity. Qed.

Lemma sample_draws_well_formed : well_formed_draws sample_runtime.
Proof. intros n. split; vm_compute; reflexivity. Qed.

(** C4, counterexample: a write that fails once the file is open leaves
    the file empty, the entry it held lost. *)
Lemma failed_write_loses_entries :
  get_all_feedback one_entry_file = Ok [first_entry]
  /\ save_feedback one_entry_file second_entry
       (WriteFails "No space left on device" "")
     = (NotJson "",
        Raise (RuntimeError
                 "Failed to save feedback data: No space left on device"))
  /\ get_all_feedback (NotJson "") = Ok [].
Proof. repeat split; vm_compute; reflexivity. Qed.

Lemma failed_save_leaves_file_witness :
  (forall err flushed, OpenFails "Permission denied" <> WriteFails err flushed)
  /\ snd (save_feedback one_entry_file second_entry (OpenFails "Permission denied"))
     = Raise (RuntimeError "Failed to save feedback data: Permission denied")
  /\ fst (save_feedback one_entry_file second_entry (OpenFails "Permission denied"))
     = one_entry_file.
Proof.
  split; [discriminate|]. split; [vm_compute; reflexivity|].
  apply (StoreFacts.failed_save_leaves_file one_entry_file second_entry
           (OpenFails "Permission denied")
           (RuntimeError "Failed to save feedback data: Permission denied")).
  - discriminate.
  - vm_compute; reflexivity.
Defined.

(** C5, counterexample: the first call on a new client sends two
    requests, the probe and the generation request, through an SDK client
    configured for three attempts; without credentials it sends none. *)
Lemma first_call_sends_two_requests :
  requests (fst (invoke_model answering_sdk (create_bedrock_client None)
                              "Tell a joke" default_config))
  = [probe_request; generation_request "Tell a joke" default_config]
  /\ snd (invoke_model answering_sdk (create_bedrock_client None)
                       "Tell a joke" default_config) = Ok sample_joke
  /\ option_map retries_max_attempts
       (_client (fst (invoke_model answering_sdk (create_bedrock_client None)
                                   "Tell a joke" default_config)))
     = Some 3%Z
  /\ invoke_model no_credentials_sdk (create_bedrock_client None)
                  "Tell a joke" default_config
     = (create_bedrock_client None,
        Raise (BedrockClientError "Unexpected error: AWS credentials not found.")).
Proof. repeat split; vm_compute; reflexivity. Qed.

(** C6, counterexample: the error message for the category [invalid]
    names it and contains none of the valid categories. *)
Lemma invalid_category_message_lacks_valid_set :
  @generate_joke MockClient (MockGateway (Ok sample_joke)) sample_runtime
     mock_service (Some "invalid") None None
  = mk_generated mock_service []
      (Ok (mk_JokeResponse sample_uuid "" "invalid" false sample_time
                           (Some "Invalid joke category 'invalid'.")))
  /\ forallb (fun c => negb (contains "Invalid joke category 'invalid'." c))
             AVAILABLE_CATEGORIES = true.
Proof. split; vm_compute; reflexivity. Qed.

Lemma invalid_category_response_witness :
  well_formed_draws sample_runtime
  /\ validate_category "invalid" = false
  /\ g_invoked (@generate_joke MockClient (MockGateway (Ok sample_joke))
                  sample_runtime mock_service (Some "invalid") None None)
     = [].
Proof.
  split; [exact sample_draws_well_formed|]. split; [reflexivity|].
  apply (ServiceTheorems.invalid_category_response (MockGateway (Ok sample_joke))
           sample_runtime mock_service "invalid" None None
           sample_draws_well_formed eq_refl).
Defined.

Lemma one_entry_file_persisted : persisted one_entry_file.
Proof.
  apply (persisted_save Absent first_entry Written persisted_absent).
  vm_compute; reflexivity.
Qed.

Lemma stored_stats_agree_witness :
  persisted one_entry_file
  /\ exists entries stats,
       get_all_feedback one_entry_file = Ok entries
       /\ get_feedback_stats one_entry_file = Ok stats
       /\ stats_agree stats entries.
Proof.
  split; [exact one_entry_file_persisted|].
  apply (proj1 StoreFacts.stored_stats_agree_with_entries one_entry_file).
  exact one_entry_file_persisted.
Defined.

(** C7, counterexample: a file that holds one record rated 6 and the
    statistics of that record. The file loads; [get_all_feedback] skips
    the record, and [get_feedback_stats] returns the statistics as stored.
    After [save_feedback] of an entry rated 5 the statistics count both
    records, total 2 and average 5.5, and [get_all_feedback] returns the
    one entry. A file whose statistics were edited returns them as they
    are. In neither file do the statistics agree with the entries. *)
Lemma statistics_drift_from_entries :
  get_all_feedback overrated_file = Ok []
  /\ get_feedback_stats overrated_file = Ok overrated_stats
  /\ ~ stats_agree overrated_stats []
  /\ snd (save_feedback overrated_file first_entry Written) = Ok tt
  /\ get_all_feedback (fst (save_feedback overrated_file first_entry Written))
     = Ok [first_entry]
  /\ get_feedback_stats (fst (save_feedback overrated_file first_entry Written))
     = Ok drifted_stats
  /\ ~ stats_agree drifted_stats [first_entry]
  /\ get_all_feedback edited_file = Ok [first_entry]
  /\ get_feedback_stats edited_file = Ok empty_stats
  /\ ~ stats_agree empty_stats [first_entry].
Proof.
  repeat split; try (vm_compute; reflexivity);
    intros (category_stats & H & _); discriminate H.
Qed.

(** C8. The storage file holds the bytes FF FE 7B 7D, which are not
    UTF-8 text. [json.load] raises [UnicodeDecodeError], a class that the
    clause [except (json.JSONDecodeError, IOError)] does not name:
    [_load_feedback_data] lets it through, and [get_all_feedback] and
    [get_feedback_stats] raise it, where for a missing file they return
    no entry and the empty statistics. *)
Lemma non_utf8_file_raises :
  caught_on_load (UnicodeDecodeError
              "'utf-8' codec can't decode byte 0xff in position 0: invalid start byte") = false
  /\ _load_feedback_data NotUtf8
     = Raise (UnicodeDecodeError
              "'utf-8' codec can't decode byte 0xff in position 0: invalid start byte")
  /\ get_all_feedback NotUtf8
     = Raise (UnicodeDecodeError
              "'utf-8' codec can't decode byte 0xff in position 0: invalid start byte")
  /\ get_feedback_stats NotUtf8
     = Raise (UnicodeDecodeError
              "'utf-8' codec can't decode byte 0xff in position 0: invalid start byte")
  /\ get_all_feedback Absent = Ok []
  /\ get_feedback_stats Absent = Ok empty_stats.
Proof. repeat split; vm_compute; reflexivity. Qed.

(** Further files that are not read as a missing one: a text nested too
    deep for [json.load], a file whose [exists()] raises, a file that parses
    to a document without the expected keys, a file that holds an entry.
    Text that is not JSON and a file that cannot be opened are. *)
Example other_files :
  get_all_feedback (LoadRaises "[[[[" (RuntimeError
         "maximum recursion depth exceeded while decoding a JSON array from a unicode string"))
  = Raise (RuntimeError
         "maximum recursion depth exceeded while decoding a JSON array from a unicode string")
  /\ get_feedback_stats (ExistsRaises (OSError "[Errno 13] Permission denied"))
     = Raise (OSError "[Errno 13] Permission denied")
  /\ get_feedback_stats (Document (JDict [])) = Raise (KeyError "'stats'")
  /\ get_all_feedback (Document (JDict []))
     = Raise (KeyError "'feedback_entries'")
  /\ get_all_feedback one_entry_file = Ok [first_entry]
  /\ get_all_feedback (NotJson "{") = Ok []
  /\ get_feedback_stats Unreadable = Ok empty_stats.
Proof. repeat split; vm_compute; reflexivity. Qed.

Lemma sample_entries_valid : valid_entries [first_entry; second_entry].
Proof. repeat constructor; vm_compute; reflexivity. Qed.

Lemma feedback_round_trip_witness :
  valid_entries [first_entry; second_entry]
  /\ get_all_feedback (save_all Absent [first_entry; second_entry])
     = Ok [first_entry; second_entry].
Proof.
  split; [exact sample_entries_valid|].
  apply (StoreFacts.feedback_round_trip [first_entry; second_entry]
           sample_entries_valid).
Defined.

Lemma out_of_range_rating_rejected_witness :
  jr_success good_response = true
  /\ (7 < 1 \/ 5 < 7)%Z
  /\ @collect_user_feedback MockClient sample_runtime Written
       mock_service good_response 7 None
     = (mock_service, false).
Proof.
  split; [reflexivity|]. split; [right; lia|].
  apply (ServiceTheorems.out_of_range_rating_rejected (C := MockClient)
           sample_runtime Written mock_service good_response 7 None);
    [reflexivity | right; lia].
Defined.

(** The statistics of the specification's example: ratings 5, 3, 4, 2, 4
    in five categories. *)
Example five_ratings_statistics :
  let entry category rating :=
    mk_FeedbackEntry sample_uuid "joke" category rating sample_time None in
  get_feedback_stats
    (save_all Absent [ entry "programming" 5%Z; entry "general" 3%Z;
                       entry "dad-jokes" 4%Z; entry "puns" 2%Z;
                       entry "clean" 4%Z ])
  = Ok (JDict
          [ ("total_jokes", JInt 5); ("average_rating", JFloat 3.6);
            ("category_stats",
             JDict [ ("programming",
                      JDict [ ("count", JInt 1); ("avg_rating", JFloat 5) ]);
                     ("general",
                      JDict [ ("count", JInt 1); ("avg_rating", JFloat 3) ]);
                     ("dad-jokes",
                      JDict [ ("count", JInt 1); ("avg_rating", JFloat 4) ]);
                     ("puns",
                      JDict [ ("count", JInt 1); ("avg_rating", JFloat 2) ]);
                     ("clean",
                      JDict [ ("count", JInt 1); ("avg_rating", JFloat 4) ]) ]) ]).
Proof. vm_compute. reflexivity. Qed.

(** The end-to-end example of the specification: a joke for [general],
    rated 4 with a comment, then the statistics. *)
Example end_to_end :
  let g := @generate_joke MockClient (MockGateway (Ok sample_joke))
             sample_runtime mock_service (Some "general") None None in
  g_outcome g = Ok good_response
  /\ g_invoked g = [(PROMPT_general, default_config)]
  /\ let rated := collect_user_feedback sample_runtime Written (g_service g)
                     good_response 4 (Some "funny") in
     snd rated = true
     /\ get_feedback_stats (_feedback_storage (fst rated))
        = Ok (JDict
                [ ("total_jokes", JInt 1); ("average_rating", JFloat 4);
                  ("category_stats",
                   JDict [ ("general",
                            JDict [ ("count", JInt 1);
                                    ("avg_rating", JFloat 4) ]) ]) ]).
Proof. vm_compute. repeat split; reflexivity. Qed.

(** A text of white space from the client gives the empty-response
    failure; a failed response cannot be rated and the storage file is not
    touched; clearing the store leaves the empty statistics. *)
Example further_examples :
  option_map jr_error_message
    (match g_outcome (@generate_joke MockClient (MockGateway (Ok "   "))
                        sample_runtime mock_service (Some "general") None None) with
     | Ok r => Some r
     | Raise _ => None
     end)
  = Some (Some "The AI model returned an empty response.")
  /\ collect_user_feedback sample_runtime Written mock_service
       failure_with_text 4 None
     = (mock_service, false)
  /\ get_feedback_stats (fst (clear_all_feedback one_entry_file Written))
     = Ok empty_stats.
Proof. vm_compute. repeat split; reflexivity. Qed.

End Checks.
(* ------------------------------------------------------------------ *)
(** ** The cleaned text *)
(* ------------------------------------------------------------------ *)

Module CleanedText.
Import PyStr ProofDefs PyStrFacts Cleaner CleanerFacts.





End CleanedText.

(* ------------------------------------------------------------------ *)
(** ** Categories, prompts and requests *)
(* ------------------------------------------------------------------ *)

Module CategoryFacts.
Import PyStr Config Prompts Requests Measures.






End CategoryFacts.

(* ------------------------------------------------------------------ *)
(** ** What [generate_joke] returns and calls *)
(* ------------------------------------------------------------------ *)

Module GenerationFacts.
Import PyStr PyDatetime Models Config Prompts FeedbackStorage JokeService.
Import ModelsFacts Spec ServiceFacts Measures CategoryFacts.







Section WithGateway.
Context {C : Type} (G : Gateway C).















End WithGateway.

End GenerationFacts.

(* ------------------------------------------------------------------ *)
(** ** Reading the stored records *)
(* ------------------------------------------------------------------ *)

Module ReadingFacts.
Import PyStr PyDatetime Models PyDict FeedbackStorage FeedbackQueries.
Import ProofDefs Spec ModelsFacts StorageFacts StoreFacts Measures.

















End ReadingFacts.

(* ------------------------------------------------------------------ *)
(** ** The totals of the statistics report *)
(* ------------------------------------------------------------------ *)

Module ReportFacts.
Import PyStr PyDatetime Models PyDict FeedbackStorage JokeService Reports.
Import ProofDefs Spec ModelsFacts StoreFacts DictFacts Measures ReadingFacts.
Local Open Scope Z_scope.











Section WithClient.
Context {C : Type}.




End WithClient.

End ReportFacts.

(* ------------------------------------------------------------------ *)
(** ** What the Bedrock client returns and raises *)
(* ------------------------------------------------------------------ *)

Module ClientFacts.
Import PyStr Models Config PyDict Bedrock BedrockConnection.
Import Spec PyStrFacts BedrockFacts Measures ReadingFacts.













End ClientFacts.

(* ------------------------------------------------------------------ *)
(** ** Collecting feedback *)
(* ------------------------------------------------------------------ *)

Module FeedbackFacts.
Import PyStr PyDatetime Models Config FeedbackStorage JokeService FeedbackPrompt.
Import ProofDefs Spec ModelsFacts StoreFacts PyStrFacts Measures.
Local Open Scope Z_scope.


Section WithClient.
Context {C : Type}.


End WithClient.




End FeedbackFacts.

(* ------------------------------------------------------------------ *)
(** ** Further instances *)
(* ------------------------------------------------------------------ *)

Module Instances.
Import PyStr PyDatetime Models Config Prompts PyDict FeedbackStorage.
Import FeedbackQueries Reports Bedrock BedrockConnection JokeService.
Import Spec Samples Scenarios ProofDefs Measures.











(** The feedback prompt on a keyboard session: a word, a rating out of
    range, then a rating and a comment; a skip; an interrupt at the
    comment, which drops the rating typed. *)
Example prompt_sessions :
  FeedbackPrompt.prompt_for_feedback
    [ FeedbackPrompt.Line "great"; FeedbackPrompt.Line "7";
      FeedbackPrompt.Line " 4 "; FeedbackPrompt.Line "  made me laugh  " ]
  = ((Some 4%Z, Some "made me laugh"), [])
  /\ FeedbackPrompt.prompt_for_feedback [ FeedbackPrompt.Line " SKIP " ]
     = ((None, None), [])
  /\ FeedbackPrompt.prompt_for_feedback
       [ FeedbackPrompt.Line "5"; FeedbackPrompt.Interrupt ]
     = ((None, None), []).
Proof. repeat split; vm_compute; reflexivity. Qed.

End Instances.
